(** * Job tracker routes: a shallow embedding of
      [backend/src/routes/jobTracker.js] and the properties of its
      five handlers (list, stats, create, update, delete). *)

From Stdlib Require Import List String ZArith Bool Lia Permutation Sorted.
Import ListNotations.

Local Open Scope Z_scope.
Local Open Scope list_scope.

(** ** JavaScript values carried by a request body

    A request body is parsed JSON; a field that is absent reads as
    [undefined].  Numbers are kept as integers: the handlers only test
    them for truthiness and for strict equality. *)

#[local] Unset Elimination Schemes.
Inductive value : Type :=
| VUndefined
| VNull
| VBool (b : bool)
| VNum (n : Z)
| VStr (s : string)
| VArr (items : list value)
| VObj (fields : list (string * value)).
#[local] Set Elimination Schemes.

(** [!!v] *)
Definition truthy (v : value) : bool :=
  match v with
  | VUndefined | VNull => false
  | VBool b => b
  | VNum n => negb (n =? 0)
  | VStr s => negb (String.eqb s EmptyString)
  | VArr _ | VObj _ => true
  end.

(** [a || b] *)
Definition js_or (a b : value) : value := if truthy a then a else b.

(** [a === b], for a stored value [a] and a value [b] of the current
    request.  Every request body is parsed anew, so an array or object in
    it is never the same reference as one stored by an earlier request. *)
Definition strict_eq (a b : value) : bool :=
  match a, b with
  | VUndefined, VUndefined => true
  | VNull, VNull => true
  | VBool x, VBool y => Bool.eqb x y
  | VNum x, VNum y => x =? y
  | VStr x, VStr y => String.eqb x y
  | _, _ => false
  end.

(** [arr.includes(v)] *)
Definition includes (arr : list value) (v : value) : bool :=
  existsb (fun a => strict_eq a v) arr.

(** ** Tracked jobs

    [createdAt] and [updatedAt] hold what [new Date().toISOString()]
    returned.  The string is represented by the instant it denotes, in
    milliseconds since the epoch: [new Date(s)] of such a string gives
    that instant back. *)

Definition timestamp := Z.

Record note := mkNote { text : value; noteCreatedAt : timestamp }.

Record job := mkJob {
  userId : string;
  jobId : value;
  title : value;
  company : value;
  location : value;
  jobType : value;
  salary : value;
  applyLink : value;
  description : value;
  status : value;
  notes : list note;
  createdAt : timestamp;
  updatedAt : timestamp
}.

(** [job.status = s] *)
Definition with_status (s : value) (j : job) : job :=
  mkJob (userId j) (jobId j) (title j) (company j) (location j) (jobType j)
        (salary j) (applyLink j) (description j) s (notes j)
        (createdAt j) (updatedAt j).

(** [job.notes = job.notes || []; job.notes.push(n)]: the notes of a
    stored job are always an array, which is truthy. *)
Definition push_note (n : note) (j : job) : job :=
  mkJob (userId j) (jobId j) (title j) (company j) (location j) (jobType j)
        (salary j) (applyLink j) (description j) (status j) (notes j ++ [n])
        (createdAt j) (updatedAt j).

(** [job.updatedAt = t] *)
Definition with_updatedAt (t : timestamp) (j : job) : job :=
  mkJob (userId j) (jobId j) (title j) (company j) (location j) (jobType j)
        (salary j) (applyLink j) (description j) (status j) (notes j)
        (createdAt j) t.

(** ** The store: a JavaScript [Map] from tracker id to job

    A [Map] iterates in insertion order and [set] on a key that is
    present keeps its position, so the map is a list of entries. *)

Module JsMap.

Definition t := list (string * job).

Fixpoint get (k : string) (m : t) : option job :=
  match m with
  | [] => None
  | (k', v) :: rest => if String.eqb k' k then Some v else get k rest
  end.

Fixpoint set (k : string) (v : job) (m : t) : t :=
  match m with
  | [] => [(k, v)]
  | (k', v') :: rest =>
      if String.eqb k' k then (k, v) :: rest else (k', v') :: set k v rest
  end.

Definition delete (k : string) (m : t) : t :=
  filter (fun e => negb (String.eqb (fst e) k)) m.

End JsMap.

Definition store := JsMap.t.

(** ** Handlers: state and exceptions

    A handler runs on the store and either throws an [ApiError] or
    returns.  A throw does not roll the store back: the store at the
    throw is the store the next request sees. *)

Record ApiError := mkApiError { statusCode : Z; message : string }.

Definition Handler (A : Type) : Type := store -> store * (ApiError + A).

Definition ret {A} (a : A) : Handler A := fun s => (s, inr a).

Definition bind {A B} (m : Handler A) (f : A -> Handler B) : Handler B :=
  fun s =>
    match m s with
    | (s', inl e) => (s', inl e)
    | (s', inr a) => f a s'
    end.

Definition throw {A} (e : ApiError) : Handler A := fun s => (s, inl e).

Definition read : Handler store := fun s => (s, inr s).

Definition modify (f : store -> store) : Handler unit :=
  fun s => (f s, inr tt).

Notation "x <- m ;; k" := (bind m (fun x => k))
  (at level 61, m at next level, right associativity).
Notation "m ;;; k" := (bind m (fun _ => k))
  (at level 61, right associativity).

(** [for (const x of xs) body(x)] *)
Fixpoint for_of {A} (xs : list A) (body : A -> Handler unit) : Handler unit :=
  match xs with
  | [] => ret tt
  | x :: rest => body x ;;; for_of rest body
  end.

(** [if (c) throw e] *)
Definition throw_if (c : bool) (e : ApiError) : Handler unit :=
  if c then throw e else ret tt.

(** An assignment to a field of the job object held under key [k]: the
    local variable [job] and the store entry are the same object, so the
    store sees the assignment at once. *)
Definition assign (k : string) (j : job) : Handler job :=
  modify (JsMap.set k j) ;;; ret j.

(** ** [Array.prototype.sort]

    The sort is stable; with a comparator that orders by a key the
    result is the stable insertion of every element, and it is what any
    stable sort returns. *)

Section Sort.
Context {A : Type} (cmp : A -> A -> Z).

Fixpoint insert (x : A) (l : list A) : list A :=
  match l with
  | [] => [x]
  | y :: rest => if cmp x y <=? 0 then x :: y :: rest else y :: insert x rest
  end.

Definition sort (l : list A) : list A := fold_right insert [] l.
End Sort.

(** ** Responses *)

Record stats := mkStats {
  total : nat;
  saved : nat;
  applied : nat;
  interviewing : nat;
  offered : nat;
  rejected : nat
}.

Inductive response : Type :=
| TrackedJobs (trackedJobs : list (string * job)) (count : nat)
| Stats (s : stats)
| Tracked (code : Z) (id : string) (data : job)
| Updated (id : string) (data : job)
| Removed.

(** The fields of the body of [POST /]. *)
Record post_body := mkPostBody {
  req_jobId : value;
  req_title : value;
  req_company : value;
  req_location : value;
  req_jobType : value;
  req_salary : value;
  req_applyLink : value;
  req_description : value;
  req_status : value
}.

(** ** The routes *)

Definition owned_by (uid : string) (e : string * job) : bool :=
  String.eqb (userId (snd e)) uid.

(** [(a, b) => new Date(b.createdAt) - new Date(a.createdAt)] *)
Definition newest_first (a b : string * job) : Z :=
  createdAt (snd b) - createdAt (snd a).

(** [router.get('/')] *)
Definition router_get (uid : string) : Handler response :=
  st <- read ;;
  let userJobs := filter (owned_by uid) st in
  let userJobs := sort newest_first userJobs in
  ret (TrackedJobs userJobs (List.length userJobs)).

Definition has_status (s : string) (j : job) : bool :=
  strict_eq (status j) (VStr s).

(** [router.get('/stats')] *)
Definition router_get_stats (uid : string) : Handler response :=
  st <- read ;;
  let userJobs := map snd (filter (owned_by uid) st) in
  let n s := List.length (filter (has_status s) userJobs) in
  ret (Stats (mkStats (List.length userJobs) (n "saved"%string)
                      (n "applied"%string) (n "interviewing"%string)
                      (n "offered"%string) (n "rejected"%string))).

(** The test of the duplicate scan:
    [job.userId === userId && job.jobId === jobId]. *)
Definition same_job (uid : string) (jid : value) (e : string * job) : bool :=
  String.eqb (userId (snd e)) uid && strict_eq (jobId (snd e)) jid.

Definition required_error : ApiError :=
  mkApiError 400 "Job title and company are required".
Definition tracked_error : ApiError := mkApiError 400 "Job already tracked".
Definition not_found_error : ApiError :=
  mkApiError 404 "Tracked job not found".
Definition denied_error : ApiError := mkApiError 403 "Access denied".
Definition status_error : ApiError := mkApiError 400 "Invalid status".

(** [const trackedJob = { userId, jobId: jobId || trackerId, ... }], with
    [status] the destructured field: ['saved'] when the body has none. *)
Definition trackedJob (uid : string) (body : post_body)
    (trackerId : string) (now : timestamp) : job :=
  let status :=
    match req_status body with
    | VUndefined => VStr "saved"
    | s => s
    end in
  mkJob uid
        (js_or (req_jobId body) (VStr trackerId))
        (req_title body)
        (req_company body)
        (js_or (req_location body) (VStr "Remote"))
        (js_or (req_jobType body) (VStr "Full-time"))
        (js_or (req_salary body) VNull)
        (js_or (req_applyLink body) VNull)
        (js_or (req_description body) VNull)
        status
        []
        now
        now.

(** [router.post('/')]; [trackerId] is what [uuidv4()] returns and [now]
    what [new Date().toISOString()] returns during the call. *)
Definition router_post (uid : string) (body : post_body)
    (trackerId : string) (now : timestamp) : Handler response :=
  throw_if (negb (truthy (req_title body)) || negb (truthy (req_company body)))
           required_error ;;;
  st <- read ;;
  for_of st (fun e => throw_if (same_job uid (req_jobId body) e)
                               tracked_error) ;;;
  let trackedJob := trackedJob uid body trackerId now in
  modify (JsMap.set trackerId trackedJob) ;;;
  ret (Tracked 201 trackerId trackedJob).

Definition validStatuses : list value :=
  [VStr "saved"; VStr "applied"; VStr "interviewing"; VStr "offered";
   VStr "rejected"].

(** [router.put('/:trackerId')] *)
Definition router_put (trackerId uid : string) (status notes : value)
    (now : timestamp) : Handler response :=
  st <- read ;;
  match JsMap.get trackerId st with
  | None => throw not_found_error
  | Some job =>
      throw_if (negb (String.eqb (userId job) uid)) denied_error ;;;
      throw_if (truthy status && negb (includes validStatuses status))
               status_error ;;;
      job <- (if truthy status
              then assign trackerId (with_status status job)
              else ret job) ;;
      job <- (if truthy notes
              then assign trackerId (push_note (mkNote notes now) job)
              else ret job) ;;
      job <- assign trackerId (with_updatedAt now job) ;;
      modify (JsMap.set trackerId job) ;;;
      ret (Updated trackerId job)
  end.

(** [router.delete('/:trackerId')] *)
Definition router_delete (trackerId uid : string) : Handler response :=
  st <- read ;;
  match JsMap.get trackerId st with
  | None => throw not_found_error
  | Some job =>
      throw_if (negb (String.eqb (userId job) uid)) denied_error ;;;
      modify (JsMap.delete trackerId) ;;;
      ret Removed
  end.

(** ** Requests and the stores they lead to *)

Inductive request : Type :=
| GetJobs (uid : string)
| GetStats (uid : string)
| PostJob (uid : string) (body : post_body)
| PutJob (trackerId uid : string) (status notes : value)
| DeleteJob (trackerId uid : string).

(** One request, served with the identifier and the time that the
    environment hands out during it. *)
Definition handle (r : request) (uuid : string) (now : timestamp)
  : Handler response :=
  match r with
  | GetJobs uid => router_get uid
  | GetStats uid => router_get_stats uid
  | PostJob uid body => router_post uid body uuid now
  | PutJob trackerId uid status notes =>
      router_put trackerId uid status notes now
  | DeleteJob trackerId uid => router_delete trackerId uid
  end.

(** What is assumed of [uuidv4()]: the identifier is not empty and it is
    new, neither a key of the store nor a job id that a client stored. *)
Definition uuid_fresh (uuid : string) (st : store) : bool :=
  negb (String.eqb uuid EmptyString)
  && match JsMap.get uuid st with None => true | Some _ => false end
  && forallb (fun e => negb (strict_eq (jobId (snd e)) (VStr uuid))) st.

Definition uuid_ok (r : request) (uuid : string) (st : store) : bool :=
  match r with
  | PostJob _ _ => uuid_fresh uuid st
  | _ => true
  end.

(** The stores of a running server: the module starts with an empty map
    and every request is served by its handler. *)
Inductive reachable : store -> Prop :=
| reachable_init : reachable []
| reachable_step (st : store) (r : request) (uuid : string) (now : timestamp) :
    reachable st ->
    uuid_ok r uuid st = true ->
    reachable (fst (handle r uuid now st)).

(** ** Predicates of the properties *)

(** The status of every record is one of the five. *)
Definition statuses_valid (st : store) : Prop :=
  Forall (fun e => includes validStatuses (status (snd e)) = true) st.

(** Every stored job id is truthy. *)
Definition job_ids_truthy (st : store) : Prop :=
  Forall (fun e => truthy (jobId (snd e)) = true) st.

(** No user has two records on the same job id. *)
Definition jobs_unique (st : store) : Prop :=
  forall uid jid, (List.length (filter (same_job uid jid) st) <= 1)%nat.

(** The record that a successful [PUT] leaves under the key. *)
Definition updated_job (status notes : value) (now : timestamp) (j : job)
  : job :=
  let j := if truthy status then with_status status j else j in
  let j := if truthy notes then push_note (mkNote notes now) j else j in
  with_updatedAt now j.

(** A status that the body carries, whatever its value. *)
Definition supplied (v : value) : bool :=
  match v with
  | VUndefined => false
  | _ => true
  end.

(** Newest first. *)
Definition newer_or_same (a b : string * job) : Prop :=
  createdAt (snd a) >= createdAt (snd b).

(** The claims on [POST] and [PUT] as the specification words them. *)

(** [POST] answers with the conflict exactly when the caller already has
    a record on the job id of the body. *)
Definition conflict_iff_duplicate (st : store) (uid : string)
    (body : post_body) (uuid : string) (now : timestamp) : Prop :=
  snd (router_post uid body uuid now st) = inl tracked_error
  <-> existsb (same_job uid (req_jobId body)) st = true.

(** The failures of [PUT] in their order, for a test [rejects] of the
    status; every failure leaves the store as it was. *)
Definition put_failures (rejects : value -> bool) (st : store)
    (trackerId uid : string) (status notes : value) (now : timestamp)
  : Prop :=
  let r := router_put trackerId uid status notes now st in
  match JsMap.get trackerId st with
  | None => r = (st, inl not_found_error)
  | Some j =>
      if negb (String.eqb (userId j) uid) then r = (st, inl denied_error)
      else if rejects status then r = (st, inl status_error)
      else True
  end.

(** The specification: a status that is supplied and is none of the five. *)
Definition rejects_supplied (v : value) : bool :=
  supplied v && negb (includes validStatuses v).

(** The handler: a status that is truthy and is none of the five. *)
Definition rejects_truthy (v : value) : bool :=
  truthy v && negb (includes validStatuses v).

(** The [trackedJobs] of the answer to [GET /]. *)
Definition listed (uid : string) (st : store) : list (string * job) :=
  match snd (router_get uid st) with
  | inr (TrackedJobs l _) => l
  | _ => []
  end.

(** ** Sample requests *)

Definition alice : string := "alice".
Definition bob : string := "bob".
Definition uuid1 : string := "3b241101-e2bb-4255-8caf-4136c566a962".
Definition uuid2 : string := "9c5b94b1-35ad-49bb-b118-8e8fc24abf80".

(** A body with a title and a company and nothing else. *)
Definition only_title_company (t c : value) : post_body :=
  mkPostBody VUndefined t c VUndefined VUndefined VUndefined VUndefined
             VUndefined VUndefined.

Definition body_engineer : post_body :=
  only_title_company (VStr "Engineer") (VStr "Acme").

Definition body_job42 : post_body :=
  mkPostBody (VStr "job-42") (VStr "Engineer") (VStr "Acme") VUndefined
             VUndefined VUndefined VUndefined VUndefined VUndefined.

Definition body_job42_untitled : post_body :=
  mkPostBody (VStr "job-42") VUndefined (VStr "Acme") VUndefined
             VUndefined VUndefined VUndefined VUndefined VUndefined.

Definition body_bogus : post_body :=
  mkPostBody VUndefined (VStr "Engineer") (VStr "Acme") VUndefined
             VUndefined VUndefined VUndefined VUndefined (VStr "bogus").

Definition body_empty_jobId : post_body :=
  mkPostBody (VStr EmptyString) (VStr "Engineer") (VStr "Acme") VUndefined
             VUndefined VUndefined VUndefined VUndefined VUndefined.

(** The store after [alice] tracked job-42 on an empty server. *)
Definition store1 : store :=
  fst (handle (PostJob alice body_job42) uuid1 1000 []).

(** The store after a [POST] with the status "bogus" on an empty server. *)
Definition store_bogus : store :=
  fst (handle (PostJob alice body_bogus) uuid1 1000 []).

(** ** Further predicates *)

(** The [stats] of the answer to [GET /stats]. *)
Definition stats_of (uid : string) (st : store) : stats :=
  match snd (router_get_stats uid st) with
  | inr (Stats s) => s
  | _ => mkStats 0 0 0 0 0 0
  end.

(** A status that [GET /stats] counts under none of its five names. *)
Definition uncounted (j : job) : bool :=
  negb (includes validStatuses (status j)).

(** The user on whose behalf a request is served, [req.user.uid]. *)
Definition caller (r : request) : string :=
  match r with
  | GetJobs uid | GetStats uid | PostJob uid _ | PutJob _ uid _ _
  | DeleteJob _ uid => uid
  end.

(** The fields of a record that no handler assigns after the record is
    built. *)
Definition same_identity (j j' : job) : Prop :=
  userId j' = userId j /\ jobId j' = jobId j /\ title j' = title j
  /\ company j' = company j /\ location j' = location j
  /\ jobType j' = jobType j /\ salary j' = salary j
  /\ applyLink j' = applyLink j /\ description j' = description j
  /\ createdAt j' = createdAt j.

(** The fields that a stored record always carries. *)
Definition required_present (j : job) : bool :=
  truthy (title j) && truthy (company j) && truthy (jobId j)
  && truthy (location j) && truthy (jobType j).

(** The optional fields are kept when truthy and are [null] otherwise. *)
Definition truthy_or_null (v : value) : Prop :=
  truthy v = true \/ v = VNull.

Definition well_formed (j : job) : Prop :=
  required_present j = true
  /\ truthy_or_null (salary j) /\ truthy_or_null (applyLink j)
  /\ truthy_or_null (description j).

(** What a successful [PUT] on the tracker id [k] does to an entry. *)
Definition put_entry (k : string) (s n : value) (now : timestamp)
    (e : string * job) : string * job :=
  if String.eqb (fst e) k then (k, updated_job s n now (snd e)) else e.

(** A [POST] whose body has no status or one of the five. *)
Definition post_status_ok (r : request) : bool :=
  match r with
  | PostJob _ body =>
      match req_status body with
      | VUndefined => true
      | s => includes validStatuses s
      end
  | _ => true
  end.

(** A request with the identifier and the time handed out during it. *)
Definition served : Type := request * string * timestamp.

(** The store after a sequence of requests. *)
Fixpoint run (rs : list served) (st : store) : store :=
  match rs with
  | [] => st
  | (r, uuid, now) :: rest => run rest (fst (handle r uuid now st))
  end.

Definition keys (st : store) : list string := map fst st.

Definition body_remote_job : post_body :=
  mkPostBody (VStr "job-7") (VStr "Analyst") (VStr "Initech")
             (VStr "Berlin") VUndefined (VNum 0) VUndefined VUndefined
             (VStr "applied").

(** * Properties *)

(** ** Values *)

Lemma strict_eq_true (a b : value) : strict_eq a b = true -> a = b.
Proof.
  destruct a, b; simpl; try discriminate; intros H; try reflexivity.
  - apply Bool.eqb_prop in H. now subst.
  - apply Z.eqb_eq in H. now subst.
  - apply String.eqb_eq in H. now subst.
Qed.

Lemma strict_eq_truthy (a b : value) :
  truthy a = true -> truthy b = false -> strict_eq a b = false.
Proof.
  intros Ha Hb. destruct (strict_eq a b) eqn:E; [|reflexivity].
  apply strict_eq_true in E. subst. congruence.
Qed.

Lemma includes_valid_truthy (v : value) :
  includes validStatuses v = true -> truthy v = true.
Proof.
  unfold includes. rewrite existsb_exists. intros (a & Ha & E).
  apply strict_eq_true in E. subst v.
  simpl in Ha. intuition (subst; reflexivity).
Qed.

(** ** The map *)

Module JsMapFacts.
Import JsMap.

Lemma get_set_same k v m : get k (set k v m) = Some v.
Proof.
  induction m as [|[k' v'] m IH]; simpl.
  - now rewrite String.eqb_refl.
  - destruct (String.eqb k' k) eqn:E; simpl.
    + now rewrite String.eqb_refl.
    + now rewrite E.
Qed.

Lemma get_set_other k k' v m : k <> k' -> get k' (set k v m) = get k' m.
Proof.
  intros Hne. induction m as [|[k0 v0] m IH]; simpl.
  - apply String.eqb_neq in Hne. now rewrite Hne.
  - destruct (String.eqb k0 k) eqn:E; simpl.
    + apply String.eqb_eq in E. subst k0.
      apply String.eqb_neq in Hne. now rewrite Hne.
    + now rewrite IH.
Qed.

Lemma set_set k a b m : set k a (set k b m) = set k a m.
Proof.
  induction m as [|[k' v'] m IH]; simpl.
  - now rewrite String.eqb_refl.
  - destruct (String.eqb k' k) eqn:E; simpl.
    + now rewrite String.eqb_refl.
    + now rewrite E, IH.
Qed.

Lemma set_fresh k v m : get k m = None -> set k v m = m ++ [(k, v)].
Proof.
  induction m as [|[k' v'] m IH]; simpl; [reflexivity|].
  destruct (String.eqb k' k); [discriminate|].
  intros H. now rewrite IH.
Qed.

Lemma set_keys k v v0 m :
  get k m = Some v0 -> map fst (set k v m) = map fst m.
Proof.
  induction m as [|[k' v'] m IH]; simpl; [discriminate|].
  destruct (String.eqb k' k) eqn:E; simpl.
  - apply String.eqb_eq in E. now subst.
  - intros H. now rewrite IH.
Qed.

Lemma get_In k v m : get k m = Some v -> In (k, v) m.
Proof.
  induction m as [|[k' v'] m IH]; simpl; [discriminate|].
  destruct (String.eqb k' k) eqn:E.
  - apply String.eqb_eq in E. intros [= ->]. subst. now left.
  - intros H. right. now apply IH.
Qed.

Lemma In_set e k v m : In e (set k v m) -> e = (k, v) \/ In e m.
Proof.
  induction m as [|[k' v'] m IH]; simpl.
  - intros [H|[]]; now left.
  - destruct (String.eqb k' k); simpl; intros [H|H]; auto.
    destruct (IH H); auto.
Qed.

Lemma get_delete k m : get k (delete k m) = None.
Proof.
  unfold delete. induction m as [|[k' v'] m IH]; simpl; [reflexivity|].
  destruct (String.eqb k' k) eqn:E; simpl; [assumption|].
  now rewrite E.
Qed.

Lemma get_delete_other k k' m : k <> k' -> get k' (delete k m) = get k' m.
Proof.
  intros Hne. unfold delete.
  induction m as [|[k0 v0] m IH]; simpl; [reflexivity|].
  destruct (String.eqb k0 k) eqn:E; simpl.
  - apply String.eqb_eq in E. subst k0.
    apply String.eqb_neq in Hne. now rewrite Hne.
  - now rewrite IH.
Qed.

Lemma In_delete e k m : In e (delete k m) <-> In e m /\ fst e <> k.
Proof.
  unfold delete. rewrite filter_In, negb_true_iff.
  now rewrite String.eqb_neq.
Qed.

(** Replacing a record by one that a predicate cannot tell from it. *)
Lemma filter_set_length (p : string * job -> bool) k v v0 m :
  get k m = Some v0 -> p (k, v) = p (k, v0) ->
  List.length (filter p (set k v m)) = List.length (filter p m).
Proof.
  induction m as [|[k' v'] m IH]; simpl; [discriminate|].
  destruct (String.eqb k' k) eqn:E; simpl.
  - apply String.eqb_eq in E. subst k'. intros [= ->] Hp.
    rewrite Hp. destruct (p (k, v0)); reflexivity.
  - intros H Hp. destruct (p (k', v')); simpl; now rewrite IH.
Qed.

End JsMapFacts.

(** ** The handlers in closed form *)

Lemma for_of_throw_if {A} (p : A -> bool) (e : ApiError) (xs : list A)
    (s : store) :
  for_of xs (fun x => throw_if (p x) e) s
  = if existsb p xs then (s, inl e) else (s, inr tt).
Proof.
  induction xs as [|x xs IH]; simpl; [reflexivity|].
  unfold bind, throw_if at 1. destruct (p x); simpl; [reflexivity|].
  apply IH.
Qed.

Lemma router_post_eq uid body uuid now st :
  router_post uid body uuid now st
  = if negb (truthy (req_title body)) || negb (truthy (req_company body))
    then (st, inl required_error)
    else if existsb (same_job uid (req_jobId body)) st
    then (st, inl tracked_error)
    else (JsMap.set uuid (trackedJob uid body uuid now) st,
          inr (Tracked 201 uuid (trackedJob uid body uuid now))).
Proof.
  unfold router_post, bind at 1, throw_if at 1.
  destruct (negb (truthy (req_title body)) || negb (truthy (req_company body)));
    [reflexivity|].
  cbn [ret]. unfold bind at 1, read. unfold bind at 1.
  rewrite for_of_throw_if.
  destruct (existsb (same_job uid (req_jobId body)) st); reflexivity.
Qed.

Lemma router_put_eq tid uid status notes now st :
  router_put tid uid status notes now st
  = match JsMap.get tid st with
    | None => (st, inl not_found_error)
    | Some j =>
        if negb (String.eqb (userId j) uid) then (st, inl denied_error)
        else if truthy status && negb (includes validStatuses status)
        then (st, inl status_error)
        else (JsMap.set tid (updated_job status notes now j) st,
              inr (Updated tid (updated_job status notes now j)))
    end.
Proof.
  unfold router_put, bind at 1, read.
  destruct (JsMap.get tid st) as [j|]; [|reflexivity].
  unfold bind at 1, throw_if at 1.
  destruct (negb (String.eqb (userId j) uid)); [reflexivity|].
  cbn [ret]. unfold bind at 1, throw_if at 1.
  destruct (truthy status && negb (includes validStatuses status));
    [reflexivity|].
  cbn [ret]. unfold updated_job, assign, bind, modify, ret.
  destruct (truthy status), (truthy notes); cbn;
    now rewrite ?JsMapFacts.set_set.
Qed.

Lemma router_delete_eq tid uid st :
  router_delete tid uid st
  = match JsMap.get tid st with
    | None => (st, inl not_found_error)
    | Some j =>
        if negb (String.eqb (userId j) uid) then (st, inl denied_error)
        else (JsMap.delete tid st, inr Removed)
    end.
Proof.
  unfold router_delete, bind at 1, read.
  destruct (JsMap.get tid st) as [j|]; [|reflexivity].
  unfold bind at 1, throw_if at 1.
  destruct (negb (String.eqb (userId j) uid)); reflexivity.
Qed.

Lemma router_get_store uid st : fst (router_get uid st) = st.
Proof. reflexivity. Qed.

Lemma router_get_stats_store uid st : fst (router_get_stats uid st) = st.
Proof. reflexivity. Qed.

(** ** What a [PUT] keeps of a record *)

Lemma updated_job_userId s n t j : userId (updated_job s n t j) = userId j.
Proof. unfold updated_job. now destruct (truthy s), (truthy n). Qed.

Lemma updated_job_jobId s n t j : jobId (updated_job s n t j) = jobId j.
Proof. unfold updated_job. now destruct (truthy s), (truthy n). Qed.

Lemma updated_job_createdAt s n t j :
  createdAt (updated_job s n t j) = createdAt j.
Proof. unfold updated_job. now destruct (truthy s), (truthy n). Qed.

Lemma updated_job_status s n t j :
  status (updated_job s n t j) = if truthy s then s else status j.
Proof. unfold updated_job. now destruct (truthy s), (truthy n). Qed.

(** ** Invariants of the reachable stores *)

Lemma filter_filter_length {A} (p q : A -> bool) (l : list A) :
  (List.length (filter p (filter q l)) <= List.length (filter p l))%nat.
Proof.
  induction l as [|x l IH]; simpl; [lia|].
  destruct (q x), (p x) eqn:E; simpl; rewrite ?E; simpl; lia.
Qed.

Lemma filter_none {A} (p : A -> bool) (l : list A) :
  (forall x, In x l -> p x = false) -> filter p l = [].
Proof.
  induction l as [|x l IH]; simpl; intros H; [reflexivity|].
  rewrite (H x) by now left. apply IH. intros y Hy. apply H. now right.
Qed.

Lemma uuid_fresh_spec uuid st :
  uuid_fresh uuid st = true ->
  uuid <> EmptyString /\ JsMap.get uuid st = None
  /\ forall e, In e st -> strict_eq (jobId (snd e)) (VStr uuid) = false.
Proof.
  unfold uuid_fresh. rewrite !andb_true_iff, negb_true_iff, forallb_forall.
  intros [[H1 H2] H3]. repeat split.
  - now apply String.eqb_neq.
  - now destruct (JsMap.get uuid st).
  - intros e He. apply negb_true_iff. now apply H3.
Qed.

Lemma post_keeps_job_ids_truthy uid body uuid now st :
  uuid <> EmptyString -> job_ids_truthy st ->
  job_ids_truthy (fst (router_post uid body uuid now st)).
Proof.
  intros Hne Hst. rewrite router_post_eq.
  destruct (negb _ || negb _); [assumption|].
  destruct (existsb _ st); [assumption|]. simpl.
  apply Forall_forall. intros e He.
  apply JsMapFacts.In_set in He. destruct He as [->|He].
  - simpl. unfold js_or. destruct (truthy (req_jobId body)) eqn:E; [assumption|].
    simpl. apply negb_true_iff. now apply String.eqb_neq.
  - unfold job_ids_truthy in Hst. rewrite Forall_forall in Hst. now apply Hst.
Qed.

Lemma post_keeps_jobs_unique uid body uuid now st :
  uuid_fresh uuid st = true -> jobs_unique st ->
  jobs_unique (fst (router_post uid body uuid now st)).
Proof.
  intros Hfresh Hst. apply uuid_fresh_spec in Hfresh.
  destruct Hfresh as (_ & Hkey & Hjid).
  rewrite router_post_eq.
  destruct (negb _ || negb _); [assumption|].
  destruct (existsb _ st) eqn:Hscan; [assumption|]. simpl.
  rewrite JsMapFacts.set_fresh by assumption.
  intros uid' jid'. rewrite filter_app, length_app. simpl.
  destruct (same_job uid' jid' (uuid, trackedJob uid body uuid now)) eqn:Hnew;
    simpl; [|specialize (Hst uid' jid'); lia].
  rewrite filter_none; [simpl; lia|].
  intros e He. destruct (same_job uid' jid' e) eqn:Hold; [|reflexivity].
  exfalso. unfold same_job in Hnew, Hold.
  apply andb_true_iff in Hnew. destruct Hnew as [Hu Hj].
  apply andb_true_iff in Hold. destruct Hold as [Hu' Hj'].
  simpl in Hu, Hj. apply String.eqb_eq in Hu. subst uid'.
  apply strict_eq_true in Hj. subst jid'.
  unfold js_or in Hj'. destruct (truthy (req_jobId body)).
  - apply not_true_iff_false in Hscan. apply Hscan.
    apply existsb_exists. exists e. split; [assumption|].
    unfold same_job. now rewrite Hu', Hj'.
  - rewrite (Hjid e He) in Hj'. discriminate.
Qed.

Lemma put_keeps_job_ids_truthy tid uid s n now st :
  job_ids_truthy st -> job_ids_truthy (fst (router_put tid uid s n now st)).
Proof.
  intros Hst. rewrite router_put_eq.
  destruct (JsMap.get tid st) as [j|] eqn:Hget; [|assumption].
  destruct (negb _); [assumption|]. destruct (_ && _); [assumption|]. simpl.
  unfold job_ids_truthy in *. rewrite Forall_forall in *. intros e He.
  apply JsMapFacts.In_set in He. destruct He as [->|He]; [|now apply Hst].
  cbn [snd]. rewrite updated_job_jobId.
  apply (Hst (tid, j)). now apply JsMapFacts.get_In.
Qed.

Lemma put_keeps_jobs_unique tid uid s n now st :
  jobs_unique st -> jobs_unique (fst (router_put tid uid s n now st)).
Proof.
  intros Hst. rewrite router_put_eq.
  destruct (JsMap.get tid st) as [j|] eqn:Hget; [|assumption].
  destruct (negb _); [assumption|]. destruct (_ && _); [assumption|]. simpl.
  intros uid' jid'.
  rewrite (JsMapFacts.filter_set_length _ _ _ j) by
    (try assumption; unfold same_job; cbn [snd];
     now rewrite updated_job_userId, updated_job_jobId).
  apply Hst.
Qed.

Lemma delete_keeps_job_ids_truthy tid uid st :
  job_ids_truthy st -> job_ids_truthy (fst (router_delete tid uid st)).
Proof.
  intros Hst. rewrite router_delete_eq.
  destruct (JsMap.get tid st); [|assumption].
  destruct (negb _); [assumption|]. simpl.
  unfold job_ids_truthy in *. rewrite Forall_forall in *. intros e He.
  apply JsMapFacts.In_delete in He. now apply Hst.
Qed.

Lemma delete_keeps_jobs_unique tid uid st :
  jobs_unique st -> jobs_unique (fst (router_delete tid uid st)).
Proof.
  intros Hst. rewrite router_delete_eq.
  destruct (JsMap.get tid st); [|assumption].
  destruct (negb _); [assumption|]. simpl.
  intros uid' jid'. unfold JsMap.delete.
  eapply Nat.le_trans; [apply filter_filter_length|apply Hst].
Qed.

Lemma reachable_job_ids_truthy st : reachable st -> job_ids_truthy st.
Proof.
  induction 1 as [|st r uuid now Hst IH Hok]; [constructor|].
  destruct r; simpl in *.
  - assumption.
  - assumption.
  - apply post_keeps_job_ids_truthy; [|assumption].
    now apply uuid_fresh_spec in Hok.
  - now apply put_keeps_job_ids_truthy.
  - now apply delete_keeps_job_ids_truthy.
Qed.

Lemma reachable_jobs_unique st : reachable st -> jobs_unique st.
Proof.
  induction 1 as [|st r uuid now Hst IH Hok].
  - intros uid jid. simpl. lia.
  - destruct r; simpl in *.
    + assumption.
    + assumption.
    + now apply post_keeps_jobs_unique.
    + now apply put_keeps_jobs_unique.
    + now apply delete_keeps_jobs_unique.
Qed.

(** A scan for a falsy job id finds nothing in a reachable store. *)
Lemma scan_falsy_job_id st uid jid :
  job_ids_truthy st -> truthy jid = false ->
  existsb (same_job uid jid) st = false.
Proof.
  intros Hst Hjid. apply not_true_iff_false. rewrite existsb_exists.
  intros (e & He & Hsame). unfold job_ids_truthy in Hst.
  rewrite Forall_forall in Hst. specialize (Hst e He).
  unfold same_job in Hsame. apply andb_true_iff in Hsame.
  destruct Hsame as [_ Hsame].
  now rewrite (strict_eq_truthy _ _ Hst Hjid) in Hsame.
Qed.

(** ** The statuses that [PUT] and [DELETE] leave *)

Lemma put_keeps_statuses_valid tid uid s n now st :
  statuses_valid st -> statuses_valid (fst (router_put tid uid s n now st)).
Proof.
  intros Hst. rewrite router_put_eq.
  destruct (JsMap.get tid st) as [j|] eqn:Hget; [|assumption].
  destruct (negb _); [assumption|].
  destruct (truthy s && negb (includes validStatuses s)) eqn:Hs;
    [assumption|]. simpl.
  unfold statuses_valid in *. rewrite Forall_forall in *. intros e He.
  apply JsMapFacts.In_set in He. destruct He as [->|He]; [|now apply Hst].
  cbn [snd]. rewrite updated_job_status. destruct (truthy s); simpl in Hs.
  - now apply negb_false_iff in Hs.
  - apply (Hst (tid, j)). now apply JsMapFacts.get_In.
Qed.

Lemma delete_keeps_statuses_valid tid uid st :
  statuses_valid st -> statuses_valid (fst (router_delete tid uid st)).
Proof.
  intros Hst. rewrite router_delete_eq.
  destruct (JsMap.get tid st); [|assumption].
  destruct (negb _); [assumption|]. simpl.
  unfold statuses_valid in *. rewrite Forall_forall in *. intros e He.
  apply JsMapFacts.In_delete in He. now apply Hst.
Qed.

(** ** Sorting *)

Section SortFacts.
Context {A : Type} (cmp : A -> A -> Z).

Lemma insert_perm x l : Permutation (insert cmp x l) (x :: l).
Proof.
  induction l as [|y l IH]; simpl; [apply Permutation_refl|].
  destruct (cmp x y <=? 0); [apply Permutation_refl|].
  eapply perm_trans; [apply perm_skip, IH|apply perm_swap].
Qed.

Lemma sort_perm l : Permutation (sort cmp l) l.
Proof.
  induction l as [|x l IH]; simpl; [constructor|].
  eapply perm_trans; [apply insert_perm|now apply perm_skip].
Qed.

(** Stability: elements that a test [same] selects, and that the
    comparator never puts in strict order, keep their order. *)
Lemma insert_stable (same : A -> bool) x l :
  (forall a b, same a = true -> same b = true -> cmp a b <= 0) ->
  filter same (insert cmp x l) = filter same (x :: l).
Proof.
  intros Hsame. induction l as [|y l IH]; [reflexivity|].
  simpl insert. destruct (cmp x y <=? 0) eqn:E; [reflexivity|].
  apply Z.leb_gt in E. simpl in *. rewrite IH.
  destruct (same x) eqn:Hx, (same y) eqn:Hy; try reflexivity.
  specialize (Hsame x y Hx Hy). lia.
Qed.

Lemma sort_stable (same : A -> bool) l :
  (forall a b, same a = true -> same b = true -> cmp a b <= 0) ->
  filter same (sort cmp l) = filter same l.
Proof.
  intros Hsame. induction l as [|x l IH]; [reflexivity|].
  simpl sort. rewrite insert_stable by assumption.
  simpl. now rewrite IH.
Qed.
End SortFacts.

Lemma insert_newest_first x l :
  StronglySorted newer_or_same l ->
  StronglySorted newer_or_same (insert newest_first x l).
Proof.
  induction 1 as [|y l Hl IH Hy]; simpl.
  - repeat constructor.
  - unfold newest_first at 1. destruct (_ <=? 0) eqn:E.
    + apply Z.leb_le in E. constructor; [now constructor|].
      constructor; [unfold newer_or_same; lia|].
      rewrite Forall_forall in *. intros z Hz. specialize (Hy z Hz).
      unfold newer_or_same in *. lia.
    + apply Z.leb_gt in E. constructor; [assumption|].
      rewrite Forall_forall in *. intros z Hz.
      apply (Permutation_in _ (insert_perm newest_first x l)) in Hz.
      destruct Hz as [<-|Hz]; [unfold newer_or_same; lia|now apply Hy].
Qed.

Lemma sort_newest_first l :
  StronglySorted newer_or_same (sort newest_first l).
Proof.
  induction l as [|x l IH]; simpl; [constructor|].
  now apply insert_newest_first.
Qed.

(** ** Sample stores *)

Lemma store1_reachable : reachable store1.
Proof.
  unfold store1. apply reachable_step; [apply reachable_init|reflexivity].
Qed.

Lemma store1_eq :
  store1 = [(uuid1, trackedJob alice body_job42 uuid1 1000)].
Proof. reflexivity. Qed.

(** ** Status of the stored records *)

(** C1: the status of a stored record is not always one of the five.
    [POST /] stores the status of the body as it comes: after one request
    with the status "bogus" on an empty server, the store holds a record
    whose status is "bogus".  ([PUT] checks the status against
    [validStatuses], see [put_keeps_statuses_valid].) *)
Theorem post_stores_unchecked_status :
  reachable store_bogus
  /\ router_post alice body_bogus uuid1 1000 []
     = ([(uuid1, trackedJob alice body_bogus uuid1 1000)],
        inr (Tracked 201 uuid1 (trackedJob alice body_bogus uuid1 1000)))
  /\ status (trackedJob alice body_bogus uuid1 1000) = VStr "bogus"
  /\ includes validStatuses (VStr "bogus") = false
  /\ ~ statuses_valid store_bogus.
Proof.
  split; [|split; [|split; [|split]]]; try reflexivity.
  - unfold store_bogus.
    apply reachable_step; [apply reachable_init|reflexivity].
  - intros H. inversion H as [|e l He Hl]; subst. discriminate He.
Qed.

(** ** [POST /]: the duplicate scan *)

Lemma post_conflict_iff_scan uid body uuid now st :
  truthy (req_title body) = true -> truthy (req_company body) = true ->
  conflict_iff_duplicate st uid body uuid now.
Proof.
  intros Ht Hc. unfold conflict_iff_duplicate.
  rewrite router_post_eq, Ht, Hc. simpl.
  destruct (existsb _ st); simpl; split; intros H;
    try reflexivity; discriminate H.
Qed.

(** C2, as the specification words it, fails: [alice] already tracks
    job-42, and a [POST] for job-42 without a title is answered with the
    error for the required fields, not with the conflict. *)
Lemma post_conflict_counterexample :
  ~ conflict_iff_duplicate store1 alice body_job42_untitled uuid2 2000.
Proof.
  intros [_ H]. specialize (H eq_refl). discriminate H.
Qed.

(** C2, amended: on a reachable store, a [POST] whose title and company
    are truthy fails with the conflict exactly when the store holds a
    record of the caller whose job id is [===] to the one supplied; the
    failure leaves the store as it was, with exactly one such record; and
    a body without a job id never meets the conflict. *)
Theorem post_conflict st uid body uuid now :
  reachable st ->
  truthy (req_title body) = true ->
  truthy (req_company body) = true ->
  conflict_iff_duplicate st uid body uuid now
  /\ (snd (router_post uid body uuid now st) = inl tracked_error ->
      fst (router_post uid body uuid now st) = st
      /\ List.length (filter (same_job uid (req_jobId body)) st) = 1%nat)
  /\ (req_jobId body = VUndefined ->
      existsb (same_job uid (req_jobId body)) st = false
      /\ snd (router_post uid body uuid now st) <> inl tracked_error).
Proof.
  intros Hst Ht Hc.
  pose proof (post_conflict_iff_scan uid body uuid now st Ht Hc) as Hiff.
  split; [assumption|split].
  - intros Herr. apply Hiff in Herr.
    split; [rewrite router_post_eq, Ht, Hc, Herr; reflexivity|].
    pose proof (reachable_jobs_unique st Hst uid (req_jobId body)) as Hle.
    apply existsb_exists in Herr. destruct Herr as (e & He & Hsame).
    assert (In e (filter (same_job uid (req_jobId body)) st)) as Hin
      by (apply filter_In; now split).
    destruct (filter (same_job uid (req_jobId body)) st) as [|a [|b l]];
      simpl in *; [contradiction|reflexivity|lia].
  - intros Hjid.
    assert (existsb (same_job uid (req_jobId body)) st = false) as Hscan.
    { apply scan_falsy_job_id; [now apply reachable_job_ids_truthy|].
      now rewrite Hjid. }
    split; [assumption|].
    intros Herr. apply Hiff in Herr. congruence.
Qed.

Lemma post_conflict_witness :
  reachable store1
  /\ truthy (req_title body_job42) = true
  /\ truthy (req_company body_job42) = true
  /\ conflict_iff_duplicate store1 alice body_job42 uuid2 2000
  /\ snd (router_post alice body_job42 uuid2 2000 store1) = inl tracked_error.
Proof.
  split; [exact store1_reachable|].
  split; [reflexivity|]. split; [reflexivity|].
  split; [|reflexivity].
  exact (proj1 (post_conflict store1 alice body_job42 uuid2 2000
                              store1_reachable eq_refl eq_refl)).
Defined.

(** ** [PUT /:trackerId]: the failures *)

(** C3, as the specification words it, fails: the empty string is a
    status that is supplied and is none of the five, and a [PUT] with it
    on a record of the caller succeeds. *)
Lemma put_failures_counterexample :
  ~ put_failures rejects_supplied store1 uuid1 alice (VStr EmptyString) VUndefined 2000.
Proof.
  unfold put_failures. vm_compute. intros H. discriminate H.
Qed.

(** C3, amended: [PUT] fails with 404 when the store has no record under
    the tracker id; otherwise with 403 when the record belongs to another
    user; otherwise with 400 when the status is truthy and is none of the
    five; the store is the same after every one of these failures. *)
Theorem put_failure_order st trackerId uid status notes now :
  put_failures rejects_truthy st trackerId uid status notes now.
Proof.
  unfold put_failures, rejects_truthy. rewrite router_put_eq.
  destruct (JsMap.get trackerId st) as [j|]; [|reflexivity].
  destruct (negb (String.eqb (userId j) uid)); [reflexivity|].
  destruct (truthy status && negb (includes validStatuses status));
    [reflexivity|exact I].
Qed.

(** ** [PUT /:trackerId] without a status and without notes *)

(** C4: on a record of the caller, a [PUT] that carries neither a status
    nor notes succeeds; the record under the tracker id keeps every field
    but [updatedAt], which is the time of the call, and every other
    record of the store is as before. *)
Theorem put_nothing_refreshes_updatedAt st trackerId uid now j :
  JsMap.get trackerId st = Some j ->
  userId j = uid ->
  exists j' st',
    router_put trackerId uid VUndefined VUndefined now st
    = (st', inr (Updated trackerId j'))
    /\ JsMap.get trackerId st' = Some j'
    /\ map fst st' = map fst st
    /\ (forall k, k <> trackerId -> JsMap.get k st' = JsMap.get k st)
    /\ updatedAt j' = now
    /\ userId j' = userId j /\ jobId j' = jobId j /\ title j' = title j
    /\ company j' = company j /\ location j' = location j
    /\ jobType j' = jobType j /\ salary j' = salary j
    /\ applyLink j' = applyLink j /\ description j' = description j
    /\ status j' = status j /\ notes j' = notes j
    /\ createdAt j' = createdAt j.
Proof.
  intros Hget Huid.
  exists (updated_job VUndefined VUndefined now j),
         (JsMap.set trackerId (updated_job VUndefined VUndefined now j) st).
  split.
  { rewrite router_put_eq, Hget, Huid, String.eqb_refl. reflexivity. }
  split; [apply JsMapFacts.get_set_same|].
  split; [now apply JsMapFacts.set_keys with (v0 := j)|].
  split; [intros k Hk; apply JsMapFacts.get_set_other; congruence|].
  repeat split.
Qed.

Lemma put_nothing_refreshes_updatedAt_witness :
  exists j' st',
    router_put uuid1 alice VUndefined VUndefined 2000 store1
    = (st', inr (Updated uuid1 j'))
    /\ updatedAt j' = 2000 /\ createdAt j' = 1000.
Proof.
  destruct (put_nothing_refreshes_updatedAt store1 uuid1 alice 2000
              (trackedJob alice body_job42 uuid1 1000) eq_refl eq_refl)
    as (j' & st' & H & _ & _ & _ & Hu & Hrest).
  exists j', st'. split; [exact H|]. split; [exact Hu|].
  destruct Hrest as (_ & _ & _ & _ & _ & _ & _ & _ & _ & _ & _ & Hc).
  exact Hc.
Defined.

(** ** [POST /]: the record it stores *)

(** C5: on a reachable store and with a fresh tracker id, a [POST] that
    carries a title and a company and nothing else succeeds with 201; it
    adds one entry to the store, under the tracker id, and the record has
    the location "Remote", the job type "Full-time", the status "saved",
    no notes, the tracker id for job id and equal [createdAt] and
    [updatedAt]; the answer is the tracker id with that record. *)
Theorem post_defaults st uid t c uuid now :
  reachable st ->
  uuid_fresh uuid st = true ->
  truthy t = true ->
  truthy c = true ->
  exists j,
    router_post uid (only_title_company t c) uuid now st
    = (st ++ [(uuid, j)], inr (Tracked 201 uuid j))
    /\ JsMap.get uuid st = None
    /\ JsMap.get uuid (st ++ [(uuid, j)]) = Some j
    /\ userId j = uid /\ title j = t /\ company j = c
    /\ location j = VStr "Remote"
    /\ jobType j = VStr "Full-time"
    /\ status j = VStr "saved"
    /\ notes j = []
    /\ jobId j = VStr uuid
    /\ createdAt j = now /\ updatedAt j = now
    /\ createdAt j = updatedAt j.
Proof.
  intros Hst Hfresh Ht Hc.
  apply uuid_fresh_spec in Hfresh. destruct Hfresh as (_ & Hkey & _).
  exists (trackedJob uid (only_title_company t c) uuid now).
  split.
  { rewrite router_post_eq. cbn [only_title_company req_title req_company
                                  req_jobId].
    rewrite Ht, Hc. cbn [negb orb].
    rewrite scan_falsy_job_id;
      [|now apply reachable_job_ids_truthy|reflexivity].
    now rewrite JsMapFacts.set_fresh. }
  split; [assumption|].
  split; [rewrite <- JsMapFacts.set_fresh by assumption;
          apply JsMapFacts.get_set_same|].
  repeat split.
Qed.

Lemma post_defaults_witness :
  exists j,
    router_post bob body_engineer uuid2 2000 store1
    = (store1 ++ [(uuid2, j)], inr (Tracked 201 uuid2 j))
    /\ jobId j = VStr uuid2.
Proof.
  destruct (post_defaults store1 bob (VStr "Engineer") (VStr "Acme") uuid2
              2000 store1_reachable eq_refl eq_refl eq_refl)
    as (j & H & _ & _ & _ & _ & _ & _ & _ & _ & _ & Hj & _).
  exists j. split; [exact H|exact Hj].
Defined.

(** ** [POST /]: the required fields *)

(** C6: a [POST] whose title or company is falsy, so missing
    ([undefined]) or the empty string, fails with the 400 error of the
    required fields, and the store is the same after it. *)
Theorem post_requires_title_company st uid body uuid now :
  truthy (req_title body) = false \/ truthy (req_company body) = false ->
  router_post uid body uuid now st = (st, inl required_error)
  /\ statusCode required_error = 400
  /\ truthy VUndefined = false
  /\ truthy (VStr EmptyString) = false.
Proof.
  intros H. rewrite router_post_eq.
  destruct H as [H|H]; rewrite H; simpl; rewrite ?orb_true_r; auto.
Qed.

Lemma post_requires_title_company_witness :
  router_post alice body_job42_untitled uuid2 2000 store1
  = (store1, inl required_error).
Proof.
  exact (proj1 (post_requires_title_company store1 alice body_job42_untitled
                  uuid2 2000 (or_introl eq_refl))).
Defined.

(** ** [GET /] *)

Lemma listed_eq uid st :
  listed uid st = sort newest_first (filter (owned_by uid) st).
Proof. reflexivity. Qed.

Lemma listed_In uid st e :
  In e (listed uid st) <-> In e st /\ userId (snd e) = uid.
Proof.
  rewrite listed_eq. split.
  - intros H. apply (Permutation_in _ (sort_perm _ _)) in H.
    apply filter_In in H. destruct H as [H1 H2].
    split; [assumption|]. now apply String.eqb_eq.
  - intros [H1 H2].
    apply (Permutation_in _ (Permutation_sym (sort_perm _ _))).
    apply filter_In. split; [assumption|]. now apply String.eqb_eq.
Qed.

(** C7: [GET /] leaves the store as it is and answers with the entries
    of the store that belong to the caller, each once, ordered from the
    newest [createdAt] to the oldest, and with their number. *)
Theorem get_lists_own_jobs st uid :
  exists l,
    router_get uid st = (st, inr (TrackedJobs l (List.length l)))
    /\ Permutation l (filter (owned_by uid) st)
    /\ (forall e, In e l <-> In e st /\ userId (snd e) = uid)
    /\ StronglySorted newer_or_same l.
Proof.
  exists (sort newest_first (filter (owned_by uid) st)).
  split; [reflexivity|]. split; [apply sort_perm|]. split.
  - intros e. rewrite <- listed_eq. apply listed_In.
  - apply sort_newest_first.
Qed.

(** X13: records with the same [createdAt] are listed in the order of
    the store, which is the order of their creation. *)
Lemma get_lists_ties_in_store_order st uid (t : timestamp) :
  filter (fun e => createdAt (snd e) =? t) (listed uid st)
  = filter (fun e => createdAt (snd e) =? t) (filter (owned_by uid) st).
Proof.
  rewrite listed_eq. apply sort_stable.
  intros a b Ha Hb. apply Z.eqb_eq in Ha, Hb. unfold newest_first. lia.
Qed.

(** ** [DELETE /:trackerId] *)

(** C8: [DELETE] fails with 404 when the store has no record under the
    tracker id and otherwise with 403 when the record belongs to another
    user, as [PUT] does on the same store, and the store is the same
    after these failures; on a record of the caller it succeeds and
    removes the entry: the store has nothing under the tracker id, no
    list shows it while the other entries are listed as before, and a
    second [DELETE] of the tracker id fails with 404. *)
Theorem delete_checks_and_removes st trackerId uid :
  (JsMap.get trackerId st = None ->
   router_delete trackerId uid st = (st, inl not_found_error)
   /\ forall s n now,
        router_put trackerId uid s n now st = (st, inl not_found_error))
  /\ (forall j, JsMap.get trackerId st = Some j -> userId j <> uid ->
      router_delete trackerId uid st = (st, inl denied_error)
      /\ forall s n now,
           router_put trackerId uid s n now st = (st, inl denied_error))
  /\ (forall j, JsMap.get trackerId st = Some j -> userId j = uid ->
      exists st',
        router_delete trackerId uid st = (st', inr Removed)
        /\ JsMap.get trackerId st' = None
        /\ (forall k, k <> trackerId -> JsMap.get k st' = JsMap.get k st)
        /\ (forall u e, In e (listed u st') <->
                        In e (listed u st) /\ fst e <> trackerId)
        /\ forall u, router_delete trackerId u st'
                     = (st', inl not_found_error)).
Proof.
  split; [|split].
  - intros Hget. split; [now rewrite router_delete_eq, Hget|].
    intros s n now. now rewrite router_put_eq, Hget.
  - intros j Hget Hne. apply String.eqb_neq in Hne.
    split; [now rewrite router_delete_eq, Hget, Hne|].
    intros s n now. now rewrite router_put_eq, Hget, Hne.
  - intros j Hget Huid. exists (JsMap.delete trackerId st).
    split; [now rewrite router_delete_eq, Hget, Huid, String.eqb_refl|].
    split; [apply JsMapFacts.get_delete|].
    split; [intros k Hk; apply JsMapFacts.get_delete_other; congruence|].
    split.
    + intros u e. rewrite !listed_In, JsMapFacts.In_delete. tauto.
    + intros u. now rewrite router_delete_eq, JsMapFacts.get_delete.
Qed.

Lemma delete_checks_and_removes_witness :
  exists st',
    router_delete uuid1 alice store1 = (st', inr Removed)
    /\ JsMap.get uuid1 st' = None
    /\ router_delete uuid1 alice st' = (st', inl not_found_error).
Proof.
  destruct (proj2 (proj2 (delete_checks_and_removes store1 uuid1 alice))
              (trackedJob alice body_job42 uuid1 1000) eq_refl eq_refl)
    as (st' & H1 & H2 & _ & _ & H3).
  exists st'. split; [exact H1|]. split; [exact H2|exact (H3 alice)].
Defined.

(** ** [PUT /:trackerId] with an empty status *)

(** C9: on a record of the caller, a [PUT] whose status is the empty
    string succeeds, whatever the notes are, and the status of the record
    is the one it had. *)
Theorem put_empty_status st trackerId uid notes now j :
  JsMap.get trackerId st = Some j ->
  userId j = uid ->
  exists j',
    router_put trackerId uid (VStr EmptyString) notes now st
    = (JsMap.set trackerId j' st, inr (Updated trackerId j'))
    /\ JsMap.get trackerId (JsMap.set trackerId j' st) = Some j'
    /\ status j' = status j.
Proof.
  intros Hget Huid. exists (updated_job (VStr EmptyString) notes now j).
  split; [now rewrite router_put_eq, Hget, Huid, String.eqb_refl|].
  split; [apply JsMapFacts.get_set_same|].
  now rewrite updated_job_status.
Qed.

Lemma put_empty_status_witness :
  exists j',
    router_put uuid1 alice (VStr EmptyString) VUndefined 2000 store1
    = (JsMap.set uuid1 j' store1, inr (Updated uuid1 j'))
    /\ status j' = VStr "saved".
Proof.
  destruct (put_empty_status store1 uuid1 alice VUndefined 2000
              (trackedJob alice body_job42 uuid1 1000) eq_refl eq_refl)
    as (j' & H & _ & Hs).
  exists j'. split; [exact H|exact Hs].
Defined.

(** ** [POST /] with a falsy job id *)

(** C10: on a reachable store, a [POST] with a truthy title and company
    and a falsy job id (absent, [null], [false], [0] or the empty string)
    succeeds with 201, and the record it stores under the tracker id has
    the tracker id for job id. *)
Theorem post_falsy_job_id st uid body uuid now :
  reachable st ->
  truthy (req_title body) = true ->
  truthy (req_company body) = true ->
  truthy (req_jobId body) = false ->
  exists j,
    router_post uid body uuid now st
    = (JsMap.set uuid j st, inr (Tracked 201 uuid j))
    /\ JsMap.get uuid (JsMap.set uuid j st) = Some j
    /\ jobId j = VStr uuid.
Proof.
  intros Hst Ht Hc Hjid. exists (trackedJob uid body uuid now).
  split.
  { rewrite router_post_eq, Ht, Hc. cbn [negb orb].
    rewrite scan_falsy_job_id;
      [reflexivity|now apply reachable_job_ids_truthy|assumption]. }
  split; [apply JsMapFacts.get_set_same|].
  cbn [trackedJob jobId]. unfold js_or. now rewrite Hjid.
Qed.

Lemma post_falsy_job_id_witness :
  truthy (req_jobId body_empty_jobId) = false
  /\ exists j,
       router_post alice body_empty_jobId uuid2 2000 store1
       = (JsMap.set uuid2 j store1, inr (Tracked 201 uuid2 j))
       /\ jobId j = VStr uuid2.
Proof.
  split; [reflexivity|].
  destruct (post_falsy_job_id store1 alice body_empty_jobId uuid2 2000
              store1_reachable eq_refl eq_refl eq_refl)
    as (j & H & _ & Hj).
  exists j. split; [exact H|exact Hj].
Defined.

(** * Further properties of the routes *)

(** ** Keys of the map *)

Lemma get_None_keys k st : JsMap.get k st = None -> ~ In k (keys st).
Proof.
  induction st as [|[k' v] st IH]; simpl; [tauto|].
  destruct (String.eqb k' k) eqn:E; [discriminate|].
  apply String.eqb_neq in E. intros H [H'|H']; [contradiction|].
  now apply IH.
Qed.

Lemma delete_absent k st : ~ In k (keys st) -> JsMap.delete k st = st.
Proof.
  unfold JsMap.delete. induction st as [|[k' v] st IH]; simpl; [reflexivity|].
  intros H. destruct (String.eqb k' k) eqn:E; simpl.
  - apply String.eqb_eq in E. tauto.
  - rewrite IH; tauto.
Qed.

Lemma keys_filter_In (p : string * job -> bool) k st :
  In k (keys (filter p st)) -> In k (keys st).
Proof.
  unfold keys. rewrite !in_map_iff. intros (e & He & Hin).
  apply filter_In in Hin. exists e. tauto.
Qed.

Lemma keys_filter_NoDup (p : string * job -> bool) st :
  NoDup (keys st) -> NoDup (keys (filter p st)).
Proof.
  induction st as [|[k v] st IH]; simpl; [trivial|].
  intros H. inversion H as [|? ? Hk Hst]; subst.
  destruct (p (k, v)); simpl; [|now apply IH].
  constructor; [|now apply IH].
  intros Hin. apply Hk. now apply keys_filter_In in Hin.
Qed.

(** Removing the one entry of a key. *)
Lemma delete_split k j st :
  NoDup (keys st) -> JsMap.get k st = Some j ->
  exists l1 l2, st = l1 ++ (k, j) :: l2 /\ JsMap.delete k st = l1 ++ l2.
Proof.
  induction st as [|[k' v] st IH]; simpl; [discriminate|].
  intros Hnd Hget. inversion Hnd as [|? ? Hk Hst]; subst.
  destruct (String.eqb k' k) eqn:E.
  - apply String.eqb_eq in E. subst k'. injection Hget as ->.
    exists [], st. split; [reflexivity|].
    unfold JsMap.delete. cbn [filter fst]. rewrite ?String.eqb_refl.
    cbn [negb app]. now apply delete_absent.
  - destruct (IH Hst Hget) as (l1 & l2 & H1 & H2).
    exists ((k', v) :: l1), l2. split; [simpl; now rewrite H1|].
    unfold JsMap.delete in *. cbn [filter fst]. rewrite ?E.
    cbn [negb]. simpl. now rewrite H2.
Qed.

(** Replacing a record that a test rejects by one that it rejects. *)
Lemma filter_set_rejected (p : string * job -> bool) k v v0 st :
  JsMap.get k st = Some v0 -> p (k, v) = false -> p (k, v0) = false ->
  filter p (JsMap.set k v st) = filter p st.
Proof.
  induction st as [|[k' v'] st IH]; simpl; [discriminate|].
  destruct (String.eqb k' k) eqn:E; simpl.
  - apply String.eqb_eq in E. subst k'. intros [= ->] Hv Hv0.
    now rewrite Hv, Hv0.
  - intros Hget Hv Hv0. now rewrite IH.
Qed.

(** ** The keys of a reachable store *)

Lemma handle_keeps_keys_NoDup r uuid now st :
  uuid_ok r uuid st = true -> NoDup (keys st) ->
  NoDup (keys (fst (handle r uuid now st))).
Proof.
  intros Hok Hst. destruct r; simpl in *; try assumption.
  - apply uuid_fresh_spec in Hok. destruct Hok as (_ & Hkey & _).
    rewrite router_post_eq.
    destruct (negb _ || negb _); [assumption|].
    destruct (existsb _ st); [assumption|]. simpl.
    rewrite JsMapFacts.set_fresh by assumption.
    unfold keys in *. rewrite map_app. simpl.
    apply NoDup_app; [assumption|repeat constructor; simpl; tauto|].
    intros k Hk [<-|[]]. now apply (get_None_keys _ _ Hkey).
  - rewrite router_put_eq.
    destruct (JsMap.get trackerId st) as [j|] eqn:Hget; [|assumption].
    destruct (negb _); [assumption|]. destruct (_ && _); [assumption|].
    simpl. unfold keys. now rewrite (JsMapFacts.set_keys _ _ j).
  - rewrite router_delete_eq.
    destruct (JsMap.get trackerId st); [|assumption].
    destruct (negb _); [assumption|]. simpl.
    now apply keys_filter_NoDup.
Qed.

Lemma reachable_keys_NoDup st : reachable st -> NoDup (keys st).
Proof.
  induction 1 as [|st r uuid now Hst IH Hok]; [constructor|].
  now apply handle_keeps_keys_NoDup.
Qed.

(** X5: no two entries of a reachable store have the same tracker id,
    and the record that a lookup finds under a tracker id is the only
    entry with it. *)
Theorem reachable_one_record_per_id st :
  reachable st ->
  NoDup (keys st)
  /\ forall k j, In (k, j) st <-> JsMap.get k st = Some j.
Proof.
  intros Hst. pose proof (reachable_keys_NoDup st Hst) as Hnd.
  split; [assumption|].
  clear Hst. induction st as [|[k' v] st IH]; intros k j; simpl.
  - split; [tauto|discriminate].
  - inversion Hnd as [|? ? Hk Hrest]; subst.
    destruct (String.eqb k' k) eqn:E.
    + apply String.eqb_eq in E. subst k'. split.
      * intros [[= ->]|Hin]; [reflexivity|].
        exfalso. apply Hk. unfold keys. apply in_map_iff.
        now exists (k, j).
      * intros [= ->]. now left.
    + apply String.eqb_neq in E. rewrite <- (IH Hrest). split.
      * intros [[= ? ?]|Hin]; [congruence|assumption].
      * intros Hin. now right.
Qed.

Lemma reachable_one_record_per_id_witness :
  NoDup (keys store1)
  /\ forall k j, In (k, j) store1 <-> JsMap.get k store1 = Some j.
Proof.
  exact (reachable_one_record_per_id store1 store1_reachable).
Defined.

(** ** Job ids of one user *)

(** X6: in a reachable store, two entries of one user whose job ids are
    [===] are the same entry: no user tracks a job twice. *)
Theorem reachable_no_job_twice st e1 e2 :
  reachable st ->
  In e1 st -> In e2 st ->
  userId (snd e1) = userId (snd e2) ->
  strict_eq (jobId (snd e1)) (jobId (snd e2)) = true ->
  e1 = e2.
Proof.
  intros Hst H1 H2 Hu Hj.
  pose proof (reachable_jobs_unique st Hst (userId (snd e2))
                (jobId (snd e2))) as Hle.
  assert (same_job (userId (snd e2)) (jobId (snd e2)) e1 = true) as S1.
  { unfold same_job. rewrite Hj, andb_true_r. now apply String.eqb_eq. }
  assert (same_job (userId (snd e2)) (jobId (snd e2)) e2 = true) as S2.
  { unfold same_job. rewrite String.eqb_refl. simpl.
    pose proof (strict_eq_true _ _ Hj) as Heq. now rewrite Heq in Hj. }
  assert (In e1 (filter (same_job (userId (snd e2)) (jobId (snd e2))) st))
    as F1 by (apply filter_In; now split).
  assert (In e2 (filter (same_job (userId (snd e2)) (jobId (snd e2))) st))
    as F2 by (apply filter_In; now split).
  destruct (filter (same_job (userId (snd e2)) (jobId (snd e2))) st)
    as [|a [|b l]]; simpl in *; try contradiction; [|lia].
  destruct F1 as [<-|[]], F2 as [<-|[]]. reflexivity.
Qed.

Lemma reachable_no_job_twice_witness :
  (uuid1, trackedJob alice body_job42 uuid1 1000)
  = (uuid1, trackedJob alice body_job42 uuid1 1000).
Proof.
  apply (reachable_no_job_twice store1 _ _ store1_reachable);
    [now left|now left|reflexivity|reflexivity].
Defined.

(** ** What a stored record always carries *)

Lemma updated_job_keeps s n t j :
  same_identity j (updated_job s n t j)
  /\ notes (updated_job s n t j)
     = notes j ++ (if truthy n then [mkNote n t] else [])
  /\ updatedAt (updated_job s n t j) = t.
Proof.
  unfold updated_job, same_identity.
  destruct (truthy s), (truthy n); simpl; rewrite ?app_nil_r; tauto.
Qed.

Lemma js_or_truthy a b : truthy b = true -> truthy (js_or a b) = true.
Proof. unfold js_or. now destruct (truthy a) eqn:E. Qed.

Lemma js_or_null a : truthy_or_null (js_or a VNull).
Proof. unfold js_or, truthy_or_null. destruct (truthy a) eqn:E; auto. Qed.

Lemma updated_job_well_formed s n t j :
  well_formed j -> well_formed (updated_job s n t j).
Proof.
  destruct (updated_job_keeps s n t j)
    as ((_ & Hj & Ht & Hc & Hl & Hjt & Hs & Ha & Hd & _) & _).
  unfold well_formed, required_present.
  now rewrite Hj, Ht, Hc, Hl, Hjt, Hs, Ha, Hd.
Qed.

Lemma handle_keeps_well_formed r uuid now st :
  uuid_ok r uuid st = true ->
  Forall (fun e => well_formed (snd e)) st ->
  Forall (fun e => well_formed (snd e)) (fst (handle r uuid now st)).
Proof.
  intros Hok Hst. destruct r; simpl in *; try assumption.
  - apply uuid_fresh_spec in Hok. destruct Hok as (Hne & _ & _).
    rewrite router_post_eq.
    destruct (negb (truthy (req_title body))
              || negb (truthy (req_company body))) eqn:Hreq;
      [assumption|].
    destruct (existsb _ st); [assumption|]. simpl.
    apply orb_false_iff in Hreq. destruct Hreq as [Ht Hc].
    apply negb_false_iff in Ht, Hc.
    rewrite Forall_forall in *. intros e He.
    apply JsMapFacts.In_set in He. destruct He as [->|He]; [|now apply Hst].
    unfold well_formed, required_present. cbn [snd trackedJob title company
      jobId location jobType salary applyLink description].
    rewrite Ht, Hc, !js_or_truthy; try reflexivity.
    + repeat split; apply js_or_null.
    + simpl. apply negb_true_iff. now apply String.eqb_neq.
  - rewrite router_put_eq.
    destruct (JsMap.get trackerId st) as [j|] eqn:Hget; [|assumption].
    destruct (negb _); [assumption|]. destruct (_ && _); [assumption|].
    simpl. rewrite Forall_forall in *. intros e He.
    apply JsMapFacts.In_set in He. destruct He as [->|He]; [|now apply Hst].
    cbn [snd]. apply updated_job_well_formed.
    apply (Hst (trackerId, j)). now apply JsMapFacts.get_In.
  - rewrite router_delete_eq.
    destruct (JsMap.get trackerId st); [|assumption].
    destruct (negb _); [assumption|]. simpl.
    rewrite Forall_forall in *. intros e He.
    apply JsMapFacts.In_delete in He. now apply Hst.
Qed.

(** X7: every record of a reachable store has a truthy title, company,
    job id, location and job type, and its salary, apply link and
    description are truthy or [null]. *)
Theorem reachable_records_well_formed st k j :
  reachable st ->
  JsMap.get k st = Some j ->
  truthy (title j) = true /\ truthy (company j) = true
  /\ truthy (jobId j) = true /\ truthy (location j) = true
  /\ truthy (jobType j) = true
  /\ truthy_or_null (salary j) /\ truthy_or_null (applyLink j)
  /\ truthy_or_null (description j).
Proof.
  intros Hst Hget.
  assert (Forall (fun e => well_formed (snd e)) st) as Hwf.
  { clear Hget. induction Hst as [|st r uuid now Hst IH Hok];
      [constructor|]. now apply handle_keeps_well_formed. }
  rewrite Forall_forall in Hwf.
  specialize (Hwf (k, j) (JsMapFacts.get_In _ _ _ Hget)).
  destruct Hwf as (Hreq & Hs & Ha & Hd). unfold required_present in Hreq.
  rewrite !andb_true_iff in Hreq. tauto.
Qed.

Lemma reachable_records_well_formed_witness :
  truthy_or_null (salary (trackedJob alice body_job42 uuid1 1000)).
Proof.
  exact (proj1 (proj2 (proj2 (proj2 (proj2 (proj2
    (reachable_records_well_formed store1 uuid1
       (trackedJob alice body_job42 uuid1 1000)
       store1_reachable eq_refl))))))).
Defined.

(** ** What a request does to the records that exist *)

(** X4: a request served on a store leaves every existing record under
    its tracker id, with the same user, job id, title, company, location,
    job type, salary, apply link, description and [createdAt], and with
    its notes extended at the end or left alone, unless the request is the
    [DELETE] of that tracker id by the owner of the record. *)
Theorem request_keeps_records r uuid now st k j :
  uuid_ok r uuid st = true ->
  JsMap.get k st = Some j ->
  match JsMap.get k (fst (handle r uuid now st)) with
  | Some j' => same_identity j j' /\ exists more, notes j' = notes j ++ more
  | None => r = DeleteJob k (userId j)
  end.
Proof.
  intros Hok Hget.
  assert (same_identity j j /\ exists more, notes j = notes j ++ more) as Hsame.
  { split; [unfold same_identity; tauto|].
    exists []. now rewrite app_nil_r. }
  destruct r as [u|u|u body|tid u s n|tid u]; simpl in *;
    try (rewrite Hget; exact Hsame).
  - apply uuid_fresh_spec in Hok. destruct Hok as (_ & Hkey & _).
    rewrite router_post_eq.
    destruct (negb _ || negb _); [simpl; now rewrite Hget|].
    destruct (existsb _ st); [simpl; now rewrite Hget|]. simpl.
    rewrite JsMapFacts.get_set_other, Hget; [exact Hsame|congruence].
  - rewrite router_put_eq.
    destruct (JsMap.get tid st) as [j0|] eqn:Hput;
      [|simpl; now rewrite Hget].
    destruct (negb _); [simpl; now rewrite Hget|].
    destruct (_ && _); [simpl; now rewrite Hget|]. simpl.
    destruct (String.eqb tid k) eqn:E.
    + apply String.eqb_eq in E. subst tid.
      rewrite JsMapFacts.get_set_same.
      assert (j0 = j) by congruence. subst j0.
      destruct (updated_job_keeps s n now j) as (Hid & Hn & _).
      split; [assumption|]. eexists. exact Hn.
    + apply String.eqb_neq in E.
      rewrite JsMapFacts.get_set_other, Hget by assumption. exact Hsame.
  - rewrite router_delete_eq.
    destruct (JsMap.get tid st) as [j0|] eqn:Hdel;
      [|simpl; now rewrite Hget].
    destruct (String.eqb (userId j0) u) eqn:Hu; simpl;
      [|now rewrite Hget].
    destruct (String.eqb tid k) eqn:E.
    + apply String.eqb_eq in E. subst tid.
      rewrite JsMapFacts.get_delete.
      assert (j0 = j) by congruence. subst j0.
      apply String.eqb_eq in Hu. now subst u.
    + apply String.eqb_neq in E.
      rewrite JsMapFacts.get_delete_other, Hget by assumption. exact Hsame.
Qed.

Lemma request_keeps_records_witness :
  match JsMap.get uuid1
          (fst (handle (PutJob uuid1 alice (VStr "applied") (VStr "sent")) uuid2
                       2000 store1)) with
  | Some j' =>
      same_identity (trackedJob alice body_job42 uuid1 1000) j'
      /\ exists more,
           notes j' = notes (trackedJob alice body_job42 uuid1 1000) ++ more
  | None =>
      PutJob uuid1 alice (VStr "applied") (VStr "sent")
      = DeleteJob uuid1 (userId (trackedJob alice body_job42 uuid1 1000))
  end.
Proof.
  exact (request_keeps_records
           (PutJob uuid1 alice (VStr "applied") (VStr "sent")) uuid2 2000
           store1 uuid1 (trackedJob alice body_job42 uuid1 1000)
           eq_refl eq_refl).
Defined.

(** ** [PUT /:trackerId]: the record it leaves *)

(** X3: a [PUT] by the owner with a status that is falsy or one of the
    five succeeds; the record takes the status when it is truthy, gets
    one note [{text: notes, createdAt: now}] at the end when the notes
    are truthy and none otherwise, has [updatedAt] set to the time of the
    call and keeps every other field; the store keeps its keys in their
    order. *)
Theorem put_updates_record st trackerId uid s n now j :
  JsMap.get trackerId st = Some j ->
  userId j = uid ->
  rejects_truthy s = false ->
  exists j' st',
    router_put trackerId uid s n now st
    = (st', inr (Updated trackerId j'))
    /\ JsMap.get trackerId st' = Some j'
    /\ keys st' = keys st
    /\ status j' = (if truthy s then s else status j)
    /\ notes j'
       = notes j ++ (if truthy n then [mkNote n now] else [])
    /\ updatedAt j' = now
    /\ same_identity j j'.
Proof.
  intros Hget Huid Hrej. unfold rejects_truthy in Hrej.
  exists (updated_job s n now j),
         (JsMap.set trackerId (updated_job s n now j) st).
  destruct (updated_job_keeps s n now j) as (Hid & Hn & Hu).
  split.
  { now rewrite router_put_eq, Hget, Huid, String.eqb_refl, Hrej. }
  split; [apply JsMapFacts.get_set_same|].
  split; [now apply JsMapFacts.set_keys with (v0 := j)|].
  split; [apply updated_job_status|]. tauto.
Qed.

Lemma put_updates_record_witness :
  exists j' st',
    router_put uuid1 alice (VStr "applied") (VStr "sent") 2000 store1
    = (st', inr (Updated uuid1 j'))
    /\ status j' = VStr "applied"
    /\ notes j' = [mkNote (VStr "sent") 2000].
Proof.
  destruct (put_updates_record store1 uuid1 alice (VStr "applied")
              (VStr "sent") 2000 (trackedJob alice body_job42 uuid1 1000)
              eq_refl eq_refl eq_refl)
    as (j' & st' & H & _ & _ & Hs & Hn & _).
  exists j', st'. split; [exact H|]. split; [exact Hs|exact Hn].
Defined.

(** X15: two [PUT]s by the owner, each with one of the five statuses and
    with truthy notes, both succeed; the record ends with the second
    status, with the two notes after the earlier ones in the order of the
    calls, and with the second time in [updatedAt]; [createdAt] is as
    before. *)
Theorem put_twice st trackerId uid s1 n1 t1 s2 n2 t2 j :
  JsMap.get trackerId st = Some j ->
  userId j = uid ->
  includes validStatuses s1 = true ->
  includes validStatuses s2 = true ->
  truthy n1 = true ->
  truthy n2 = true ->
  exists j1 j2 st1 st2,
    router_put trackerId uid s1 n1 t1 st = (st1, inr (Updated trackerId j1))
    /\ router_put trackerId uid s2 n2 t2 st1
       = (st2, inr (Updated trackerId j2))
    /\ JsMap.get trackerId st2 = Some j2
    /\ status j2 = s2
    /\ notes j2 = notes j ++ [mkNote n1 t1; mkNote n2 t2]
    /\ updatedAt j2 = t2
    /\ createdAt j2 = createdAt j
    /\ keys st2 = keys st.
Proof.
  intros Hget Huid Hs1 Hs2 Hn1 Hn2.
  pose proof (includes_valid_truthy _ Hs1) as Ht1.
  pose proof (includes_valid_truthy _ Hs2) as Ht2.
  set (j1 := updated_job s1 n1 t1 j).
  set (j2 := updated_job s2 n2 t2 j1).
  exists j1, j2, (JsMap.set trackerId j1 st), (JsMap.set trackerId j2 st).
  split.
  { now rewrite router_put_eq, Hget, Huid, String.eqb_refl, Hs1, Ht1. }
  split.
  { rewrite router_put_eq, JsMapFacts.get_set_same.
    unfold j1 at 1. rewrite updated_job_userId, Huid, String.eqb_refl.
    now rewrite Hs2, Ht2, JsMapFacts.set_set. }
  split; [apply JsMapFacts.get_set_same|].
  destruct (updated_job_keeps s2 n2 t2 j1) as (Hid2 & Hnotes2 & Hu2).
  destruct (updated_job_keeps s1 n1 t1 j) as (Hid1 & Hnotes1 & Hu1).
  fold j1 in Hid1, Hnotes1, Hu1. fold j2 in Hid2, Hnotes2, Hu2.
  split; [unfold j2; now rewrite updated_job_status, Ht2|].
  split; [now rewrite Hnotes2, Hnotes1, Hn1, Hn2, <- app_assoc|].
  split; [assumption|].
  split; [unfold j2, j1; now rewrite !updated_job_createdAt|].
  now apply JsMapFacts.set_keys with (v0 := j).
Qed.

Lemma put_twice_witness :
  exists j1 j2 st1 st2,
    router_put uuid1 alice (VStr "applied") (VStr "sent") 2000 store1
    = (st1, inr (Updated uuid1 j1))
    /\ router_put uuid1 alice (VStr "offered") (VStr "call") 3000 st1
       = (st2, inr (Updated uuid1 j2))
    /\ notes j2 = [mkNote (VStr "sent") 2000; mkNote (VStr "call") 3000].
Proof.
  destruct (put_twice store1 uuid1 alice (VStr "applied") (VStr "sent") 2000
              (VStr "offered") (VStr "call") 3000
              (trackedJob alice body_job42 uuid1 1000)
              eq_refl eq_refl eq_refl eq_refl eq_refl eq_refl)
    as (j1 & j2 & st1 & st2 & H1 & H2 & _ & _ & Hn & _).
  exists j1, j2, st1, st2. split; [exact H1|]. split; [exact H2|exact Hn].
Defined.

(** ** Failures *)

(** X8: a request that fails leaves the store as it was, and its error
    has the code 400, 403 or 404; the two [GET] routes never fail. *)
Theorem failure_changes_nothing r uuid now st e :
  snd (handle r uuid now st) = inl e ->
  fst (handle r uuid now st) = st
  /\ (statusCode e = 400 \/ statusCode e = 403 \/ statusCode e = 404)
  /\ (forall uid, r <> GetJobs uid) /\ (forall uid, r <> GetStats uid).
Proof.
  destruct r as [u|u|u body|tid u s n|tid u]; simpl.
  - discriminate.
  - discriminate.
  - rewrite router_post_eq.
    destruct (negb _ || negb _);
      [intros [= <-]; repeat split; auto; discriminate|].
    destruct (existsb _ st);
      [intros [= <-]; repeat split; auto; discriminate|discriminate].
  - rewrite router_put_eq. destruct (JsMap.get tid st);
      [|intros [= <-]; repeat split; auto; discriminate].
    destruct (negb _); [intros [= <-]; repeat split; auto; discriminate|].
    destruct (_ && _);
      [intros [= <-]; repeat split; auto; discriminate|discriminate].
  - rewrite router_delete_eq. destruct (JsMap.get tid st);
      [|intros [= <-]; repeat split; auto; discriminate].
    destruct (negb _);
      [intros [= <-]; repeat split; auto; discriminate|discriminate].
Qed.

Lemma failure_changes_nothing_witness :
  fst (handle (PutJob uuid1 bob (VStr "applied") VUndefined) uuid2 2000 store1)
  = store1.
Proof.
  exact (proj1 (failure_changes_nothing
                  (PutJob uuid1 bob (VStr "applied") VUndefined) uuid2 2000
                  store1 denied_error eq_refl)).
Defined.

(** ** One user's requests and another user's records *)

Lemma handle_keeps_other_users r uuid now st v :
  NoDup (keys st) ->
  uuid_ok r uuid st = true ->
  caller r <> v ->
  filter (owned_by v) (fst (handle r uuid now st)) = filter (owned_by v) st.
Proof.
  intros Hnd Hok Hv.
  destruct r as [u|u|u body|tid u s n|tid u]; simpl in *; try reflexivity.
  - apply uuid_fresh_spec in Hok. destruct Hok as (_ & Hkey & _).
    rewrite router_post_eq.
    destruct (negb _ || negb _); [reflexivity|].
    destruct (existsb _ st); [reflexivity|]. simpl.
    rewrite JsMapFacts.set_fresh, filter_app by assumption. simpl.
    unfold owned_by at 2. simpl. apply String.eqb_neq in Hv.
    now rewrite Hv, app_nil_r.
  - rewrite router_put_eq.
    destruct (JsMap.get tid st) as [j|] eqn:Hget; [|reflexivity].
    destruct (String.eqb (userId j) u) eqn:Hu; simpl; [|reflexivity].
    destruct (_ && _); [reflexivity|]. simpl.
    apply String.eqb_eq in Hu. apply String.eqb_neq in Hv.
    apply filter_set_rejected with (v0 := j); [assumption| |];
      unfold owned_by; cbn [snd].
    + now rewrite updated_job_userId, Hu.
    + now rewrite Hu.
  - rewrite router_delete_eq.
    destruct (JsMap.get tid st) as [j|] eqn:Hget; [|reflexivity].
    destruct (String.eqb (userId j) u) eqn:Hu; simpl; [|reflexivity].
    apply String.eqb_eq in Hu. apply String.eqb_neq in Hv.
    destruct (delete_split tid j st Hnd Hget) as (l1 & l2 & H1 & H2).
    rewrite H2, H1, !filter_app. cbn [filter].
    assert (owned_by v (tid, j) = false) as Hf
      by (unfold owned_by; cbn [snd]; now rewrite Hu).
    now rewrite Hf.
Qed.

(** X9: on a reachable store, a request served for one user changes
    nothing of what another user is shown: the answers of [GET /] and of
    [GET /stats] to the other user are the same before and after. *)
Theorem other_users_unaffected r uuid now st v :
  reachable st ->
  uuid_ok r uuid st = true ->
  caller r <> v ->
  snd (router_get v (fst (handle r uuid now st))) = snd (router_get v st)
  /\ snd (router_get_stats v (fst (handle r uuid now st)))
     = snd (router_get_stats v st).
Proof.
  intros Hst Hok Hv.
  pose proof (handle_keeps_other_users r uuid now st v
                (reachable_keys_NoDup st Hst) Hok Hv) as H.
  unfold router_get, router_get_stats, bind, read, ret. cbn [snd].
  now rewrite H.
Qed.

Lemma other_users_unaffected_witness :
  snd (router_get alice (fst (handle (PostJob bob body_engineer) uuid2 2000
                                     store1)))
  = snd (router_get alice store1).
Proof.
  exact (proj1 (other_users_unaffected (PostJob bob body_engineer) uuid2 2000
                  store1 alice store1_reachable eq_refl
                  ltac:(discriminate))).
Defined.

(** ** [DELETE /:trackerId]: what is left *)

(** X16: on a reachable store, a [DELETE] by the owner takes exactly one
    entry out of the store, the one under the tracker id, and leaves the
    other entries as they were and in their order. *)
Theorem delete_removes_one_entry st trackerId uid j :
  reachable st ->
  JsMap.get trackerId st = Some j ->
  userId j = uid ->
  exists before after,
    st = before ++ (trackerId, j) :: after
    /\ router_delete trackerId uid st = (before ++ after, inr Removed)
    /\ List.length st = S (List.length (before ++ after))
    /\ ~ In trackerId (keys (before ++ after)).
Proof.
  intros Hst Hget Huid.
  destruct (delete_split trackerId j st (reachable_keys_NoDup st Hst) Hget)
    as (l1 & l2 & H1 & H2).
  exists l1, l2. split; [assumption|].
  split; [now rewrite router_delete_eq, Hget, Huid, String.eqb_refl, H2|].
  split; [rewrite H1, !length_app; simpl; lia|].
  rewrite <- H2. apply get_None_keys, JsMapFacts.get_delete.
Qed.

Lemma delete_removes_one_entry_witness :
  exists before after,
    store1 = before ++ (uuid1, trackedJob alice body_job42 uuid1 1000)
                    :: after
    /\ router_delete uuid1 alice store1 = (before ++ after, inr Removed).
Proof.
  destruct (delete_removes_one_entry store1 uuid1 alice
              (trackedJob alice body_job42 uuid1 1000)
              store1_reachable eq_refl eq_refl)
    as (l1 & l2 & H1 & H2 & _).
  exists l1, l2. split; [exact H1|exact H2].
Defined.

(** ** [POST /] followed by other requests *)

Lemma delete_key_absent k st : JsMap.get k st = None -> JsMap.delete k st = st.
Proof. intros H. apply delete_absent. now apply get_None_keys. Qed.

(** X10: when a [POST] with a fresh tracker id has succeeded, a [DELETE]
    of that tracker id by the same user succeeds and gives back the store
    of before the [POST]; the same [DELETE] by another user fails with
    403 and one of another tracker id that the store does not hold fails
    with 404. *)
Theorem post_then_delete st uid body uuid now st' j :
  uuid_fresh uuid st = true ->
  router_post uid body uuid now st = (st', inr (Tracked 201 uuid j)) ->
  router_delete uuid uid st' = (st, inr Removed)
  /\ (forall other, other <> uid ->
        router_delete uuid other st' = (st', inl denied_error))
  /\ (forall k, k <> uuid -> JsMap.get k st = None ->
        router_delete k uid st' = (st', inl not_found_error)).
Proof.
  intros Hfresh Hpost. apply uuid_fresh_spec in Hfresh.
  destruct Hfresh as (_ & Hkey & _).
  rewrite router_post_eq in Hpost.
  destruct (negb _ || negb _); [discriminate|].
  destruct (existsb _ st); [discriminate|].
  injection Hpost as <- <-.
  split; [|split].
  - rewrite router_delete_eq, JsMapFacts.get_set_same.
    cbn [trackedJob userId]. rewrite String.eqb_refl. cbn [negb].
    rewrite JsMapFacts.set_fresh by assumption.
    unfold JsMap.delete. rewrite filter_app. cbn [filter fst].
    rewrite String.eqb_refl. cbn [negb]. rewrite app_nil_r.
    fold (JsMap.delete uuid st). now rewrite delete_key_absent.
  - intros other Hne. rewrite router_delete_eq, JsMapFacts.get_set_same.
    cbn [trackedJob userId]. apply not_eq_sym in Hne.
    apply String.eqb_neq in Hne. now rewrite Hne.
  - intros k Hk Hget. rewrite router_delete_eq.
    rewrite JsMapFacts.get_set_other by congruence. now rewrite Hget.
Qed.

Lemma post_then_delete_witness :
  router_delete uuid2 bob
    (fst (router_post bob body_engineer uuid2 2000 store1))
  = (store1, inr Removed).
Proof.
  exact (proj1 (post_then_delete store1 bob body_engineer uuid2 2000 _ _
                  eq_refl eq_refl)).
Defined.

(** X11: when a [POST] with a fresh tracker id has succeeded, the list
    of the caller is the list of before with the new entry added, so one
    longer, and the new entry is found under its tracker id. *)
Theorem post_then_get st uid body uuid now st' j :
  uuid_fresh uuid st = true ->
  router_post uid body uuid now st = (st', inr (Tracked 201 uuid j)) ->
  JsMap.get uuid st' = Some j
  /\ userId j = uid
  /\ Permutation (listed uid st') ((uuid, j) :: listed uid st)
  /\ List.length (listed uid st') = S (List.length (listed uid st))
  /\ total (stats_of uid st') = S (total (stats_of uid st)).
Proof.
  intros Hfresh Hpost. apply uuid_fresh_spec in Hfresh.
  destruct Hfresh as (_ & Hkey & _).
  rewrite router_post_eq in Hpost.
  destruct (negb _ || negb _); [discriminate|].
  destruct (existsb _ st); [discriminate|].
  injection Hpost as <- <-.
  assert (filter (owned_by uid)
            (JsMap.set uuid (trackedJob uid body uuid now) st)
          = filter (owned_by uid) st
            ++ [(uuid, trackedJob uid body uuid now)]) as Hf.
  { rewrite JsMapFacts.set_fresh, filter_app by assumption.
    cbn [filter]. unfold owned_by at 2. cbn [snd trackedJob userId].
    now rewrite String.eqb_refl. }
  assert (Permutation
            (listed uid (JsMap.set uuid (trackedJob uid body uuid now) st))
            ((uuid, trackedJob uid body uuid now) :: listed uid st)) as Hp.
  { rewrite !listed_eq, Hf.
    eapply perm_trans; [apply sort_perm|].
    eapply perm_trans; [apply Permutation_app_comm|]. simpl.
    apply perm_skip, Permutation_sym, sort_perm. }
  split; [apply JsMapFacts.get_set_same|].
  split; [reflexivity|]. split; [assumption|].
  split; [now rewrite (Permutation_length Hp)|].
  unfold stats_of, router_get_stats, bind, read, ret. cbn [snd total].
  rewrite Hf, map_app, length_app. simpl. lia.
Qed.

Lemma post_then_get_witness :
  List.length
    (listed bob (fst (router_post bob body_engineer uuid2 2000 store1)))
  = S (List.length (listed bob store1)).
Proof.
  exact (proj1 (proj2 (proj2 (proj2
    (post_then_get store1 bob body_engineer uuid2 2000 _ _
       eq_refl eq_refl))))).
Defined.

(** ** Statuses along a sequence of requests *)

Lemma post_keeps_statuses_valid uid body uuid now st :
  post_status_ok (PostJob uid body) = true ->
  statuses_valid st ->
  statuses_valid (fst (router_post uid body uuid now st)).
Proof.
  intros Hok Hst. rewrite router_post_eq.
  destruct (negb _ || negb _); [assumption|].
  destruct (existsb _ st); [assumption|]. simpl.
  unfold statuses_valid in *. rewrite Forall_forall in *. intros e He.
  apply JsMapFacts.In_set in He. destruct He as [->|He]; [|now apply Hst].
  cbn [snd trackedJob status]. simpl in Hok.
  destruct (req_status body); assumption || reflexivity.
Qed.

(** X12: when every [POST] of a sequence of requests carries no status
    or one of the five, the sequence takes a store whose statuses are all
    among the five to a store whose statuses are all among the five; so
    does every such sequence from the empty store. *)
Theorem run_keeps_statuses_valid rs st :
  Forall (fun q : served => post_status_ok (fst (fst q)) = true) rs ->
  statuses_valid st ->
  statuses_valid (run rs st).
Proof.
  intros Hrs. revert st.
  induction Hrs as [|[[r uuid] now] rs Hr Hrs IH]; intros st Hst;
    [assumption|].
  simpl. apply IH. cbn [fst] in Hr.
  destruct r as [u|u|u body|tid u s n|tid u]; simpl.
  - assumption.
  - assumption.
  - now apply post_keeps_statuses_valid.
  - now apply put_keeps_statuses_valid.
  - now apply delete_keeps_statuses_valid.
Qed.

Lemma run_keeps_statuses_valid_witness :
  statuses_valid
    (run [(PostJob alice body_remote_job, uuid1, 1000);
          (PostJob alice body_job42, uuid2, 1500);
          (PutJob uuid1 alice (VStr "offered") VUndefined, uuid2, 2000)] []).
Proof.
  apply run_keeps_statuses_valid; [|constructor].
  repeat constructor.
Defined.

(** ** [GET /stats] *)

Lemma filter_length_perm {A} (p : A -> bool) (l l' : list A) :
  Permutation l l' -> List.length (filter p l) = List.length (filter p l').
Proof.
  induction 1 as [|x l l' H IH|x y l|l l' l'' H1 IH1 H2 IH2]; simpl.
  - reflexivity.
  - destruct (p x); simpl; now rewrite IH.
  - destruct (p x), (p y); reflexivity.
  - now rewrite IH1.
Qed.

Lemma stats_of_eq uid st :
  router_get_stats uid st = (st, inr (Stats (stats_of uid st))).
Proof. reflexivity. Qed.

(** X1: [GET /stats] leaves the store as it is; its [total] is the
    [count] of [GET /] for the same user, and each of its five counts is
    the number of records with that status in the list of [GET /]. *)
Theorem stats_agree_with_list st uid :
  router_get_stats uid st = (st, inr (Stats (stats_of uid st)))
  /\ router_get uid st
     = (st, inr (TrackedJobs (listed uid st) (total (stats_of uid st))))
  /\ let n s := List.length (filter (has_status s) (map snd (listed uid st))) in
     saved (stats_of uid st) = n "saved"%string
     /\ applied (stats_of uid st) = n "applied"%string
     /\ interviewing (stats_of uid st) = n "interviewing"%string
     /\ offered (stats_of uid st) = n "offered"%string
     /\ rejected (stats_of uid st) = n "rejected"%string.
Proof.
  assert (Permutation (map snd (filter (owned_by uid) st))
                      (map snd (listed uid st))) as Hp.
  { rewrite listed_eq. apply Permutation_map, Permutation_sym, sort_perm. }
  split; [reflexivity|]. split.
  - assert (total (stats_of uid st) = List.length (listed uid st)) as Hlen.
    { change (total (stats_of uid st))
        with (List.length (map snd (filter (owned_by uid) st))).
      now rewrite (Permutation_length Hp), length_map. }
    rewrite Hlen. reflexivity.
  - unfold stats_of. cbn [router_get_stats bind read ret snd saved applied
                          interviewing offered rejected].
    repeat split; apply filter_length_perm; exact Hp.
Qed.

Lemma tally_one (j : job) :
  ((if has_status "saved" j then 1 else 0)
   + (if has_status "applied" j then 1 else 0)
   + (if has_status "interviewing" j then 1 else 0)
   + (if has_status "offered" j then 1 else 0)
   + (if has_status "rejected" j then 1 else 0)
   + (if uncounted j then 1 else 0) = 1)%nat.
Proof.
  unfold has_status, uncounted, includes, validStatuses.
  destruct (status j) as [| | | |s| |]; try reflexivity.
  cbn [existsb strict_eq].
  rewrite !(String.eqb_sym _ s), orb_false_r.
  destruct (String.eqb s "saved") eqn:E1;
    [apply String.eqb_eq in E1; now subst|].
  destruct (String.eqb s "applied") eqn:E2;
    [apply String.eqb_eq in E2; now subst|].
  destruct (String.eqb s "interviewing") eqn:E3;
    [apply String.eqb_eq in E3; now subst|].
  destruct (String.eqb s "offered") eqn:E4;
    [apply String.eqb_eq in E4; now subst|].
  destruct (String.eqb s "rejected") eqn:E5;
    [apply String.eqb_eq in E5; now subst|].
  reflexivity.
Qed.

Lemma tally_total (l : list job) :
  (List.length (filter (has_status "saved") l)
   + List.length (filter (has_status "applied") l)
   + List.length (filter (has_status "interviewing") l)
   + List.length (filter (has_status "offered") l)
   + List.length (filter (has_status "rejected") l)
   + List.length (filter uncounted l) = List.length l)%nat.
Proof.
  induction l as [|j l IH]; [reflexivity|].
  pose proof (tally_one j) as H. cbn [filter].
  destruct (has_status "saved" j), (has_status "applied" j),
    (has_status "interviewing" j), (has_status "offered" j),
    (has_status "rejected" j), (uncounted j); cbn [List.length] in *; lia.
Qed.

Lemma five_and_rest (a b c d e u n : nat) :
  (a + b + c + d + e + u = n)%nat ->
  (a + b + c + d + e <= n)%nat
  /\ ((a + b + c + d + e = n)%nat <-> u = 0%nat).
Proof. lia. Qed.

(** X2: in the answer of [GET /stats] the five counts add up to [total]
    less the number of the user's records whose status is none of the
    five; they add up to [total] exactly when every record of the user
    has one of the five statuses. *)
Theorem stats_counts_add_up st uid :
  let s := stats_of uid st in
  let five := (saved s + applied s + interviewing s + offered s
               + rejected s)%nat in
  (five + List.length (filter uncounted (map snd (filter (owned_by uid) st)))
   = total s)%nat
  /\ (five <= total s)%nat
  /\ (five = total s <->
      forall e, In e st -> userId (snd e) = uid ->
                includes validStatuses (status (snd e)) = true).
Proof.
  pose proof (tally_total (map snd (filter (owned_by uid) st))) as H.
  set (l := map snd (filter (owned_by uid) st)) in *.
  assert (l = map snd (filter (owned_by uid) st)) as Hl by reflexivity.
  change (stats_of uid st)
    with (mkStats (List.length l)
                  (List.length (filter (has_status "saved") l))
                  (List.length (filter (has_status "applied") l))
                  (List.length (filter (has_status "interviewing") l))
                  (List.length (filter (has_status "offered") l))
                  (List.length (filter (has_status "rejected") l))).
  cbv zeta. cbn [saved applied interviewing offered rejected total].
  clearbody l.
  destruct (five_and_rest _ _ _ _ _ _ _ H) as [Hle Hiff].
  split; [exact H|]. split; [exact Hle|].
  rewrite Hiff, length_zero_iff_nil. split.
  - intros H0 e He Hu.
    destruct (includes validStatuses (status (snd e))) eqn:E; [reflexivity|].
    assert (In (snd e) (filter uncounted l)) as Hin.
    { apply filter_In. split.
      - rewrite Hl. apply in_map, filter_In. split; [assumption|].
        now apply String.eqb_eq.
      - unfold uncounted. now rewrite E. }
    rewrite H0 in Hin. contradiction.
  - intros Hall. apply filter_none.
    intros j Hj. rewrite Hl in Hj. apply in_map_iff in Hj.
    destruct Hj as (e & <- & He).
    apply filter_In in He. destruct He as [He Hu].
    apply String.eqb_eq in Hu. unfold uncounted.
    now rewrite (Hall e He Hu).
Qed.

(** X14: for a user who has no record in the store, [GET /] answers with
    the empty list and the count 0, and [GET /stats] with six zeros. *)
Theorem no_records_no_answers st uid :
  (forall e, In e st -> userId (snd e) <> uid) ->
  router_get uid st = (st, inr (TrackedJobs [] 0))
  /\ router_get_stats uid st = (st, inr (Stats (mkStats 0 0 0 0 0 0))).
Proof.
  intros H.
  assert (filter (owned_by uid) st = []) as Hf.
  { apply filter_none. intros e He. apply String.eqb_neq. now apply H. }
  unfold router_get, router_get_stats, bind, read, ret.
  now rewrite Hf.
Qed.

Lemma no_records_no_answers_witness :
  router_get bob store1 = (store1, inr (TrackedJobs [] 0)).
Proof.
  apply (no_records_no_answers store1 bob).
  intros e [<-|[]]. discriminate.
Defined.

(** ** [POST /]: what it stores of the body *)

(** X17: with a fresh tracker id, a [POST] with a truthy title and
    company and a job id that the caller does not track yet succeeds with
    201 and adds one entry at the end of the store.  The record keeps the status
    of the body whenever the body has one, also [null] or the empty
    string, and has "saved" only when the body has none; a location or a
    job type that is falsy gives "Remote" or "Full-time"; a salary, apply
    link or description that is falsy gives [null]. *)
Theorem post_stores_body st uid body uuid now :
  uuid_fresh uuid st = true ->
  truthy (req_title body) = true ->
  truthy (req_company body) = true ->
  existsb (same_job uid (req_jobId body)) st = false ->
  exists j,
    router_post uid body uuid now st
    = (st ++ [(uuid, j)], inr (Tracked 201 uuid j))
    /\ (supplied (req_status body) = true -> status j = req_status body)
    /\ (req_status body = VUndefined -> status j = VStr "saved")
    /\ location j
       = (if truthy (req_location body) then req_location body
          else VStr "Remote")
    /\ jobType j
       = (if truthy (req_jobType body) then req_jobType body
          else VStr "Full-time")
    /\ salary j
       = (if truthy (req_salary body) then req_salary body else VNull)
    /\ applyLink j
       = (if truthy (req_applyLink body) then req_applyLink body else VNull)
    /\ description j
       = (if truthy (req_description body) then req_description body
          else VNull)
    /\ jobId j
       = (if truthy (req_jobId body) then req_jobId body else VStr uuid)
    /\ notes j = [] /\ createdAt j = now /\ updatedAt j = now.
Proof.
  intros Hfresh Ht Hc Hscan. apply uuid_fresh_spec in Hfresh.
  destruct Hfresh as (_ & Hkey & _).
  exists (trackedJob uid body uuid now). split.
  { rewrite router_post_eq, Ht, Hc, Hscan. cbn [negb orb].
    now rewrite JsMapFacts.set_fresh. }
  cbn [trackedJob status location jobType salary applyLink description jobId
       notes createdAt updatedAt]. unfold js_or.
  split; [destruct (req_status body); simpl; intros H;
          reflexivity || discriminate H|].
  split; [now intros ->|]. repeat split.
Qed.

Lemma post_stores_body_witness :
  exists j,
    router_post bob body_remote_job uuid2 2000 store1
    = (store1 ++ [(uuid2, j)], inr (Tracked 201 uuid2 j))
    /\ salary j = VNull /\ location j = VStr "Berlin".
Proof.
  destruct (post_stores_body store1 bob body_remote_job uuid2 2000
              eq_refl eq_refl eq_refl eq_refl)
    as (j & H & _ & _ & Hl & _ & Hs & _).
  exists j. split; [exact H|]. split; [exact Hs|exact Hl].
Defined.

(** ** [PUT /:trackerId] and the order of the list *)

Section SortMap.
Context {A : Type} (cmp : A -> A -> Z) (f : A -> A).
Hypothesis cmp_f : forall a b, cmp (f a) (f b) = cmp a b.

Lemma insert_map x l : insert cmp (f x) (map f l) = map f (insert cmp x l).
Proof.
  induction l as [|y l IH]; simpl; [reflexivity|].
  rewrite cmp_f. destruct (cmp x y <=? 0); simpl; [reflexivity|].
  now rewrite IH.
Qed.

Lemma sort_map l : sort cmp (map f l) = map f (sort cmp l).
Proof.
  induction l as [|x l IH]; simpl; [reflexivity|].
  now rewrite IH, insert_map.
Qed.
End SortMap.

Lemma put_entry_absent k s n now st :
  ~ In k (keys st) -> map (put_entry k s n now) st = st.
Proof.
  induction st as [|[k' v] st IH]; simpl; [reflexivity|].
  intros H. unfold put_entry at 1. cbn [fst snd].
  destruct (String.eqb k' k) eqn:E.
  - apply String.eqb_eq in E. tauto.
  - rewrite IH; tauto.
Qed.

Lemma set_as_put_entry k s n now j st :
  NoDup (keys st) -> JsMap.get k st = Some j ->
  JsMap.set k (updated_job s n now j) st = map (put_entry k s n now) st.
Proof.
  induction st as [|[k' v] st IH]; simpl; [discriminate|].
  intros Hnd Hget. inversion Hnd as [|? ? Hk Hst]; subst.
  unfold put_entry at 1. cbn [fst snd].
  destruct (String.eqb k' k) eqn:E.
  - apply String.eqb_eq in E. subst k'. injection Hget as ->.
    now rewrite put_entry_absent.
  - now rewrite IH.
Qed.

Lemma put_entry_owned v k s n now e :
  owned_by v (put_entry k s n now e) = owned_by v e.
Proof.
  unfold put_entry, owned_by. destruct (String.eqb (fst e) k); [|reflexivity].
  cbn [snd]. now rewrite updated_job_userId.
Qed.

Lemma put_entry_newest_first k s n now a b :
  newest_first (put_entry k s n now a) (put_entry k s n now b)
  = newest_first a b.
Proof.
  unfold put_entry, newest_first.
  destruct (String.eqb (fst a) k), (String.eqb (fst b) k); cbn [snd];
    now rewrite ?updated_job_createdAt.
Qed.

Lemma put_entry_key k s n now e : fst (put_entry k s n now e) = fst e.
Proof.
  unfold put_entry. destruct (String.eqb (fst e) k) eqn:E; [|reflexivity].
  apply String.eqb_eq in E. now subst.
Qed.

Lemma filter_map_commute {A} (p : A -> bool) (f : A -> A) (l : list A) :
  (forall a, p (f a) = p a) -> filter p (map f l) = map f (filter p l).
Proof.
  intros H. induction l as [|x l IH]; simpl; [reflexivity|].
  rewrite H. destruct (p x); simpl; now rewrite IH.
Qed.

(** X18: on a reachable store, a successful [PUT] does not reorder any
    user's list: the list of [GET /] after it is the list of before with
    the updated record at the place of the old one, so the tracker ids
    come in the same order. *)
Theorem put_keeps_list_order st trackerId uid s n now j v :
  reachable st ->
  JsMap.get trackerId st = Some j ->
  userId j = uid ->
  rejects_truthy s = false ->
  listed v (fst (router_put trackerId uid s n now st))
  = map (put_entry trackerId s n now) (listed v st)
  /\ keys (listed v (fst (router_put trackerId uid s n now st)))
     = keys (listed v st).
Proof.
  intros Hst Hget Huid Hrej. unfold rejects_truthy in Hrej.
  assert (listed v (fst (router_put trackerId uid s n now st))
          = map (put_entry trackerId s n now) (listed v st)) as H.
  { rewrite router_put_eq, Hget, Huid, String.eqb_refl, Hrej. cbn [negb fst].
    rewrite (set_as_put_entry _ _ _ _ _ _ (reachable_keys_NoDup st Hst) Hget).
    rewrite !listed_eq.
    rewrite filter_map_commute by (intros a; apply put_entry_owned).
    apply sort_map. intros a b. apply put_entry_newest_first. }
  split; [exact H|].
  rewrite H. unfold keys. rewrite map_map. apply map_ext.
  intros e. apply put_entry_key.
Qed.

Lemma put_keeps_list_order_witness :
  keys (listed alice
          (fst (router_put uuid1 alice (VStr "applied") (VStr "sent") 2000
                           store1)))
  = keys (listed alice store1).
Proof.
  exact (proj2 (put_keeps_list_order store1 uuid1 alice (VStr "applied")
                  (VStr "sent") 2000 (trackedJob alice body_job42 uuid1 1000)
                  alice store1_reachable eq_refl eq_refl eq_refl)).
Defined.
